(** * TopHat Playwright runner: [common/lib.ts] in Rocq

    A shallow embedding of the [PlaywrightManager] class of
    [tophat_scripts_typescript/common/lib.ts]: the session fields
    ([browser], [context], [page]), [openUrl], [validateElementFromData]
    and [teardown], together with the JavaScript string operations they
    use ([trim], [startsWith], [replace(/\/$/, '')], [===]).

    The browser-automation engine, the file system and the YAML parser are
    external: they are an oracle ([Engine]) whose answers are either a
    value or a thrown error.  Every call made to the oracle and every
    console line is recorded in a trace, so that statements about "what
    was attempted, in which order" are statements about that trace. *)

From Stdlib Require Import List NArith Bool String Ascii Lia.
Import ListNotations.

(* ===================================================================== *)
(** ** JavaScript strings *)
(* ===================================================================== *)

(** A JavaScript string is a sequence of UTF-16 code units. *)
Module JsString.

Definition t := list N.

(** Literals of the source are ASCII; [lit] reads one. *)
Definition lit (s : string) : t :=
  List.map N_of_ascii (list_ascii_of_string s).

(** [a === b] on two strings: same code units. *)
Fixpoint eqb (a b : t) : bool :=
  match a, b with
  | [], [] => true
  | x :: a', y :: b' => N.eqb x y && eqb a' b'
  | _, _ => false
  end.

(** Truthiness of a string: only [''] is falsy. *)
Definition truthy (s : t) : bool :=
  match s with [] => false | _ :: _ => true end.

(** The code units [String.prototype.trim] strips: ECMAScript
    WhiteSpace and LineTerminator. *)
Definition isWhiteSpace (c : N) : bool :=
  ((9 <=? c) && (c <=? 13)          (* TAB LF VT FF CR *)
   || (c =? 32)                     (* SPACE *)
   || (c =? 160)                    (* NO-BREAK SPACE *)
   || (c =? 5760)                   (* U+1680 *)
   || ((8192 <=? c) && (c <=? 8202))  (* U+2000 .. U+200A *)
   || (c =? 8232) || (c =? 8233)    (* LS, PS *)
   || (c =? 8239)                   (* U+202F *)
   || (c =? 8287)                   (* U+205F *)
   || (c =? 12288)                  (* U+3000 *)
   || (c =? 65279))%N.              (* U+FEFF *)

Fixpoint trimStart (s : t) : t :=
  match s with
  | [] => []
  | c :: s' => if isWhiteSpace c then trimStart s' else s
  end.

Definition trimEnd (s : t) : t := rev (trimStart (rev s)).

Definition trim (s : t) : t := trimEnd (trimStart s).

(** [s.startsWith(prefix)]. *)
Fixpoint startsWith (s prefix : t) : bool :=
  match prefix, s with
  | [], _ => true
  | _ :: _, [] => false
  | x :: prefix', y :: s' => N.eqb x y && startsWith s' prefix'
  end.

Definition slash : N := 47.

(** [s.replace(/\/$/, '')]: without the [m] flag [$] matches only at the
    end of the input, so the one possible match is a final ['/']. *)
Fixpoint dropFinalSlash (s : t) : t :=
  match s with
  | [] => []
  | [c] => if N.eqb c slash then [] else [c]
  | c :: s' => c :: dropFinalSlash s'
  end.

End JsString.

Definition jsstring : Type := JsString.t.

(* ===================================================================== *)
(** ** Handles, errors, console lines and the trace *)
(* ===================================================================== *)

(** Objects handed out by the engine are identified by a number. *)
Definition Browser := nat.
Definition BrowserContext := nat.
Definition Page := nat.
Definition Locator := nat.

(** The three engines of the [switch] in [openUrl]. *)
Inductive BrowserKind := Chromium | Firefox | Webkit.

(** What can be thrown. *)
Inductive Error :=
| UnsupportedBrowserType (browserType : jsstring)
    (* new Error(`Unsupported browser type: ${browserType}`) *)
| PageNotInitialized
    (* new Error("Page not initialized. Call openUrl first.") *)
| MissingElementsKey
    (* new Error("YAML file must contain 'elements' key") *)
| TypeError
    (* reading a property of undefined or null *)
| External (code : nat).
    (* anything thrown by playwright, fs or js-yaml *)

(** One line written by [console.log] or [console.error]. *)
Inductive LogMsg :=
| MsgNavigating (url : jsstring)
| MsgUrlWarning (currentUrl url : jsstring)
| MsgNavigated (currentUrl : jsstring)
| MsgErrorOpening (url : jsstring) (error : Error)
| MsgValidatingCount (n : nat)
| MsgValidating (description : jsstring)
| MsgLocator (locator : jsstring)
| MsgExpected (expected_text : jsstring)
| MsgNotVisible (description : jsstring)
| MsgSuccess (actualText : jsstring)
| MsgMismatch (description : jsstring)
| MsgMismatchExpected (expected_text : jsstring)
| MsgMismatchActual (actualText : jsstring)
| MsgFailed (label : jsstring) (error : Error)
| MsgRule
| MsgAllPassed
| MsgSomeFailed
| MsgErrorValidating (error : Error)
| MsgBrowserClosed
| MsgTeardownError (error : Error).

(** One observable step: a call made to the outside world (recorded when
    it is made, whether it then succeeds or throws), or a console line. *)
Inductive Event :=
| EvLaunch (kind : BrowserKind)
| EvNewContext (b : Browser)
| EvNewPage (c : BrowserContext)
| EvGoto (p : Page) (url : jsstring)
| EvWaitForLoadState (p : Page)
| EvWaitForTimeout (p : Page)
| EvClosePage (p : Page)
| EvCloseContext (c : BrowserContext)
| EvCloseBrowser (b : Browser)
| EvReadFile (path : jsstring)
| EvYamlLoad (content : jsstring)
| EvLocator (p : Page) (selector : jsstring)
| EvIsVisible (l : Locator)
| EvTextContent (l : Locator)
| EvLog (m : LogMsg).

(** A completed evaluation: a value, or a thrown error. *)
Inductive Completion (A : Type) :=
| Return (a : A)
| Throw (e : Error).
Arguments Return {A} a.
Arguments Throw {A} e.

(* ===================================================================== *)
(** ** Declaration data ([ElementData], [LocatorData]) *)
(* ===================================================================== *)

Record ElementData := mkElementData {
  locator : jsstring;
  expected_text : jsstring;
  description : option jsstring   (* description?: string *)
}.

(** What [yaml.load(fileContent)] can give, as far as the code looks at
    it.  Entries are in the order of [Object.entries(data.elements)] and
    have the declared type [ElementData]. *)
Inductive YamlDoc :=
| YNullish                       (* undefined or null: [data.elements] throws *)
| YNoElements                    (* [data.elements] is missing or falsy *)
| YElements (entries : list (jsstring * ElementData)).

(* ===================================================================== *)
(** ** The outside world *)
(* ===================================================================== *)

Record Engine := mkEngine {
  launch : BrowserKind -> Completion Browser;
  newContext : Browser -> Completion BrowserContext;
  newPage : BrowserContext -> Completion Page;
  goto : Page -> jsstring -> Completion unit;
  waitForLoadState : Page -> Completion unit;
  waitForTimeout : Page -> Completion unit;
  pageUrl : Page -> jsstring;
  locatorFirst : Page -> jsstring -> Completion Locator;
  isVisible : Locator -> Completion bool;
  textContent : Locator -> Completion (option jsstring);
  closePage : Page -> Completion unit;
  closeContext : BrowserContext -> Completion unit;
  closeBrowser : Browser -> Completion unit;
  readFileSync : jsstring -> Completion jsstring;
  yamlLoad : jsstring -> Completion YamlDoc
}.

(* ===================================================================== *)
(** ** Session state and the method monad *)
(* ===================================================================== *)

(** The three private fields of [PlaywrightManager]. *)
Record SessionState := mkSession {
  browser : option Browser;
  context : option BrowserContext;
  page : option Page
}.

(** [new PlaywrightManager()]. *)
Definition initial : SessionState := mkSession None None None.

(** A method body: from the fields to a completion, the fields afterwards
    and the trace.  Assignments made before a throw stay made. *)
Definition M (A : Type) : Type :=
  SessionState -> Completion A * SessionState * list Event.

Definition ret {A} (a : A) : M A := fun s => (Return a, s, []).

Definition throw {A} (e : Error) : M A := fun s => (Throw e, s, []).

Definition bind {A B} (m : M A) (k : A -> M B) : M B :=
  fun s =>
    match m s with
    | (Return a, s1, t1) =>
        match k a s1 with (r, s2, t2) => (r, s2, t1 ++ t2) end
    | (Throw e, s1, t1) => (Throw e, s1, t1)
    end.

(** [try { body } catch (error) { handler }]. *)
Definition tryCatch {A} (body : M A) (handler : Error -> M A) : M A :=
  fun s =>
    match body s with
    | (Return a, s1, t1) => (Return a, s1, t1)
    | (Throw e, s1, t1) =>
        match handler e s1 with (r, s2, t2) => (r, s2, t1 ++ t2) end
    end.

Definition getState : M SessionState := fun s => (Return s, s, []).

Definition setBrowser (b : option Browser) : M unit :=
  fun s => (Return tt, mkSession b (context s) (page s), []).
Definition setContext (c : option BrowserContext) : M unit :=
  fun s => (Return tt, mkSession (browser s) c (page s), []).
Definition setPage (p : option Page) : M unit :=
  fun s => (Return tt, mkSession (browser s) (context s) p, []).

(** A call to the outside world: recorded, then its completion. *)
Definition call {A} (ev : Event) (r : Completion A) : M A :=
  fun s => (r, s, [ev]).

Definition log (m : LogMsg) : M unit := fun s => (Return tt, s, [EvLog m]).

Declare Scope js_scope.
Delimit Scope js_scope with js.
Notation "x <- m ;; k" := (bind m (fun x => k))
  (at level 61, m at next level, right associativity) : js_scope.
Notation "m ;; k" := (bind m (fun _ => k))
  (at level 61, right associativity) : js_scope.
Local Open Scope js_scope.

Definition result {A} (r : Completion A * SessionState * list Event) := fst (fst r).
Definition final {A} (r : Completion A * SessionState * list Event) := snd (fst r).
Definition trace {A} (r : Completion A * SessionState * list Event) := snd r.

(* ===================================================================== *)
(** ** The class [PlaywrightManager] *)
(* ===================================================================== *)

Section PlaywrightManager.

(** [String.prototype.toLowerCase] is the host's Unicode lower-casing;
    the code only feeds its result to the [switch]. *)
Variable toLowerCase : jsstring -> jsstring.

Variable eng : Engine.

(** *** [teardown] (lib.ts 166-188) *)

Definition teardown : M unit :=
  tryCatch
    (s0 <- getState ;;
     match page s0 with
     | Some p => call (EvClosePage p) (closePage eng p) ;; setPage None
     | None => ret tt
     end ;;
     s1 <- getState ;;
     match context s1 with
     | Some c => call (EvCloseContext c) (closeContext eng c) ;; setContext None
     | None => ret tt
     end ;;
     s2 <- getState ;;
     match browser s2 with
     | Some b => call (EvCloseBrowser b) (closeBrowser eng b) ;; setBrowser None
     | None => ret tt
     end ;;
     log MsgBrowserClosed)
    (fun error => log (MsgTeardownError error)).

(** *** [openUrl] (lib.ts 27-86) *)

(** The [switch (browserType.toLowerCase())]; [None] is the [default]
    branch. *)
Definition browserKindOf (browserType : jsstring) : option BrowserKind :=
  let k := toLowerCase browserType in
  if JsString.eqb k (JsString.lit "chromium") then Some Chromium
  else if JsString.eqb k (JsString.lit "firefox") then Some Firefox
  else if JsString.eqb k (JsString.lit "webkit") then Some Webkit
  else None.

Definition openUrl (url browserType : jsstring) : M Page :=
  tryCatch
    (b <- match browserKindOf browserType with
          | Some kind => call (EvLaunch kind) (launch eng kind)
          | None => throw (UnsupportedBrowserType browserType)
          end ;;
     setBrowser (Some b) ;;
     c <- call (EvNewContext b) (newContext eng b) ;;
     setContext (Some c) ;;
     p <- call (EvNewPage c) (newPage eng c) ;;
     setPage (Some p) ;;
     log (MsgNavigating url) ;;
     call (EvGoto p url) (goto eng p url) ;;
     call (EvWaitForLoadState p) (waitForLoadState eng p) ;;
     call (EvWaitForTimeout p) (waitForTimeout eng p) ;;
     let currentUrl := pageUrl eng p in
     (if negb (JsString.startsWith currentUrl (JsString.dropFinalSlash url))
      then log (MsgUrlWarning currentUrl url)
      else log (MsgNavigated currentUrl)) ;;
     ret p)
    (fun error =>
       log (MsgErrorOpening url error) ;;
       teardown ;;
       throw error).

(** [browserType: string = "chromium"]. *)
Definition openUrlDefault (url : jsstring) : M Page :=
  openUrl url (JsString.lit "chromium").

(** *** [validateElementFromData] (lib.ts 91-161) *)

(** [x?.trim() || ''] for [x = await element.textContent()]. *)
Definition actualTextOf (content : option jsstring) : jsstring :=
  match content with
  | Some text =>
      let trimmed := JsString.trim text in
      if JsString.truthy trimmed then trimmed else []
  | None => []
  end.

(** [elementData.description || elementName], the label of the [catch]. *)
Definition labelOf (elementName : jsstring) (elementData : ElementData) : jsstring :=
  match description elementData with
  | Some d => if JsString.truthy d then d else elementName
  | None => elementName
  end.

(** [description = elementName] in the destructuring: the default applies
    only when the field is absent. *)
Definition descriptionOf (elementName : jsstring) (elementData : ElementData) : jsstring :=
  match description elementData with
  | Some d => d
  | None => elementName
  end.

(** One turn of the [for] loop: the value is [allPassed] after it. *)
Definition validateElement (p : Page) (allPassed : bool)
    (entry : jsstring * ElementData) : M bool :=
  let '(elementName, elementData) := entry in
  tryCatch
    (let desc := descriptionOf elementName elementData in
     log (MsgValidating desc) ;;
     log (MsgLocator (locator elementData)) ;;
     log (MsgExpected (expected_text elementData)) ;;
     element <- call (EvLocator p (locator elementData))
                     (locatorFirst eng p (locator elementData)) ;;
     visible <- call (EvIsVisible element) (isVisible eng element) ;;
     if negb visible then
       log (MsgNotVisible desc) ;;
       ret false
     else
       content <- call (EvTextContent element) (textContent eng element) ;;
       let actualText := actualTextOf content in
       if JsString.eqb actualText (expected_text elementData) then
         log (MsgSuccess actualText) ;;
         ret allPassed
       else
         log (MsgMismatch desc) ;;
         log (MsgMismatchExpected (expected_text elementData)) ;;
         log (MsgMismatchActual actualText) ;;
         ret false)
    (fun error =>
       log (MsgFailed (labelOf elementName elementData) error) ;;
       ret false).

(** The [for (... of Object.entries(elements))] loop. *)
Fixpoint validateLoop (p : Page) (allPassed : bool)
    (entries : list (jsstring * ElementData)) : M bool :=
  match entries with
  | [] => ret allPassed
  | entry :: rest =>
      allPassed' <- validateElement p allPassed entry ;;
      validateLoop p allPassed' rest
  end.

(** [data.elements], then the [if (!data.elements)] guard. *)
Definition elementsOf (data : YamlDoc) : M (list (jsstring * ElementData)) :=
  match data with
  | YNullish => throw TypeError
  | YNoElements => throw MissingElementsKey
  | YElements entries => ret entries
  end.

Definition validateElementFromData (yamlFilePath : jsstring) : M bool :=
  s <- getState ;;
  match page s with
  | None => throw PageNotInitialized
  | Some p =>
      tryCatch
        (fileContent <- call (EvReadFile yamlFilePath) (readFileSync eng yamlFilePath) ;;
         data <- call (EvYamlLoad fileContent) (yamlLoad eng fileContent) ;;
         elements <- elementsOf data ;;
         log (MsgValidatingCount (List.length elements)) ;;
         allPassed <- validateLoop p true elements ;;
         log MsgRule ;;
         (if allPassed then log MsgAllPassed else log MsgSomeFailed) ;;
         log MsgRule ;;
         ret allPassed)
        (fun error =>
           log (MsgErrorValidating error) ;;
           ret false)
  end.

End PlaywrightManager.

(* ===================================================================== *)
(** ** Concrete worlds used for the worked examples *)
(* ===================================================================== *)

Module Demo.

(** Lower-casing restricted to ASCII letters. *)
Definition asciiLower (s : jsstring) : jsstring :=
  List.map (fun c => if ((65 <=? c) && (c <=? 90))%N then (c + 32)%N else c) s.

Definition createAccount : jsstring := JsString.lit "Create Your Account".

(** A page with four elements:
    - selector ["#padded"]: visible, text [" Create Your Account "];
    - selector ["#double"]: visible, text ["Create  Your Account"];
    - selector ["#hidden"]: not visible;
    - any other selector: resolution throws. *)
Definition locate (selector : jsstring) : Completion Locator :=
  if JsString.eqb selector (JsString.lit "#padded") then Return 10
  else if JsString.eqb selector (JsString.lit "#double") then Return 11
  else if JsString.eqb selector (JsString.lit "#hidden") then Return 12
  else Throw (External 404).

Definition visible (l : Locator) : Completion bool :=
  match l with
  | 10 | 11 => Return true
  | _ => Return false
  end.

Definition text (l : Locator) : Completion (option jsstring) :=
  match l with
  | 10 => Return (Some (JsString.lit " Create Your Account "))
  | 11 => Return (Some (JsString.lit "Create  Your Account"))
  | _ => Return None
  end.

Definition entry (name selector : string) : jsstring * ElementData :=
  (JsString.lit name,
   mkElementData (JsString.lit selector) createAccount None).

(** The world is built from four choices: what closing the page does,
    what the page's URL is after navigation, what opening a page does
    and what the declaration file parses to. *)
Definition world (onClosePage : Completion unit) (resolvedUrl : jsstring)
    (onNewPage : Completion Page) (doc : Completion YamlDoc) : Engine :=
  {| launch := fun _ => Return 1;
     newContext := fun _ => Return 2;
     newPage := fun _ => onNewPage;
     goto := fun _ _ => Return tt;
     waitForLoadState := fun _ => Return tt;
     waitForTimeout := fun _ => Return tt;
     pageUrl := fun _ => resolvedUrl;
     locatorFirst := fun _ selector => locate selector;
     isVisible := visible;
     textContent := text;
     closePage := fun _ => onClosePage;
     closeContext := fun _ => Return tt;
     closeBrowser := fun _ => Return tt;
     readFileSync := fun _ => Return (JsString.lit "elements: ...");
     yamlLoad := fun _ => doc |}.

Definition requested : jsstring := JsString.lit "https://www.tophat.com/".
Definition redirected : jsstring := JsString.lit "https://tophat.com/".
Definition yamlPath : jsstring := JsString.lit "Locators/locator.yaml".

Definition fourEntries : list (jsstring * ElementData) :=
  [entry "first" "#padded"; entry "second" "#missing";
   entry "third" "#hidden"; entry "fourth" "#double"].

Definition healthy : Engine :=
  world (Return tt) redirected (Return 3) (Return (YElements fourEntries)).

(** The fields after a successful [openUrl] in these worlds. *)
Definition opened : SessionState := mkSession (Some 1) (Some 2) (Some 3).

(** Closing the page throws. *)
Definition pageCloseThrows : Engine :=
  world (Throw (External 1)) redirected (Return 3) (Return (YElements fourEntries)).

(** Opening a page throws. *)
Definition newPageThrows : Engine :=
  world (Return tt) redirected (Throw (External 2)) (Return (YElements fourEntries)).

(** The server answers the requested URL with its login page. *)
Definition loginUrl : jsstring := JsString.lit "https://www.tophat.com/login".
Definition redirectsToLogin : Engine :=
  world (Return tt) loginUrl (Return 3) (Return (YElements fourEntries)).

(** The declaration file has no [elements] key. *)
Definition withoutElements : Engine :=
  world (Return tt) redirected (Return 3) (Return YNoElements).

(** A declaration file whose two assertions both match. *)
Definition twoMatching : list (jsstring * ElementData) :=
  [entry "first" "#padded"; entry "again" "#padded"].
Definition allMatching : Engine :=
  world (Return tt) redirected (Return 3) (Return (YElements twoMatching)).

End Demo.

(* ===================================================================== *)
(** ** Vocabulary of the specification *)
(* ===================================================================== *)

(** The definitions of this part follow the words of the specification
    (data model, section 4 and section 8); the theorems below compare them
    with the code above. *)

(** *** Outcomes of one assertion *)

Inductive Status := Matched | NotVisible | TextMismatch | ResolutionError.

Definition isMatched (st : Status) : bool :=
  match st with Matched => true | _ => false end.

(** "its trimmed text content": an element without text content has the
    empty text. *)
Definition trimmedText (content : option jsstring) : jsstring :=
  match content with
  | Some text => JsString.trim text
  | None => []
  end.

(** The per-assertion algorithm of section 4.2, steps 1 to 3. *)
Definition classify (eng : Engine) (p : Page) (a : ElementData) : Status :=
  match locatorFirst eng p (locator a) with
  | Throw _ => ResolutionError
  | Return element =>
      match isVisible eng element with
      | Throw _ => ResolutionError
      | Return false => NotVisible
      | Return true =>
          match textContent eng element with
          | Throw _ => ResolutionError
          | Return content =>
              if JsString.eqb (trimmedText content) (expected_text a)
              then Matched else TextMismatch
          end
      end
  end.

(** "a visible resolved element whose trimmed text exactly equals
    expectedText". *)
Definition VisibleWithExpectedText (eng : Engine) (p : Page) (a : ElementData) : Prop :=
  exists element content,
    locatorFirst eng p (locator a) = Return element /\
    isVisible eng element = Return true /\
    textContent eng element = Return content /\
    trimmedText content = expected_text a.

(** The verdict a console line reports, if it is a verdict line. *)
Definition statusOfLine (m : LogMsg) : option Status :=
  match m with
  | MsgSuccess _ => Some Matched
  | MsgNotVisible _ => Some NotVisible
  | MsgMismatch _ => Some TextMismatch
  | MsgFailed _ _ => Some ResolutionError
  | _ => None
  end.

(** The sequence of outcomes reported by a run. *)
Fixpoint reported (tr : list Event) : list Status :=
  match tr with
  | [] => []
  | EvLog m :: tr' =>
      match statusOfLine m with
      | Some st => st :: reported tr'
      | None => reported tr'
      end
  | _ :: tr' => reported tr'
  end.

(** The selectors a run resolved against the page, in order. *)
Fixpoint resolved (tr : list Event) : list (Page * jsstring) :=
  match tr with
  | [] => []
  | EvLocator p selector :: tr' => (p, selector) :: resolved tr'
  | _ :: tr' => resolved tr'
  end.

(** The assertions a run announced ("Validating: ..."), in order. *)
Fixpoint announced (tr : list Event) : list jsstring :=
  match tr with
  | [] => []
  | EvLog (MsgValidating d) :: tr' => d :: announced tr'
  | _ :: tr' => announced tr'
  end.

(** *** Resources *)

(** Steps that acquire a resource or drive the browser. *)
Definition isAcquisition (ev : Event) : bool :=
  match ev with
  | EvLaunch _ | EvNewContext _ | EvNewPage _ | EvGoto _ _ => true
  | _ => false
  end.

(** The resources of a release step. *)
Inductive Resource := RPage | RContext | RBrowser.

Fixpoint releases (tr : list Event) : list Resource :=
  match tr with
  | [] => []
  | EvClosePage _ :: tr' => RPage :: releases tr'
  | EvCloseContext _ :: tr' => RContext :: releases tr'
  | EvCloseBrowser _ :: tr' => RBrowser :: releases tr'
  | _ :: tr' => releases tr'
  end.

(** The resources a session holds, in release order. *)
Definition held (s : SessionState) : list Resource :=
  (match page s with Some _ => [RPage] | None => [] end)
  ++ (match context s with Some _ => [RContext] | None => [] end)
  ++ (match browser s with Some _ => [RBrowser] | None => [] end).

(** Strict nesting of the session fields. *)
Definition nested (s : SessionState) : Prop :=
  (page s <> None -> context s <> None) /\
  (context s <> None -> browser s <> None).

Definition allNull (s : SessionState) : Prop :=
  page s = None /\ context s = None /\ browser s = None.

(** Every release step a session may need succeeds. *)
Definition releasesSucceed (eng : Engine) (s : SessionState) : Prop :=
  (forall p, page s = Some p -> closePage eng p = Return tt) /\
  (forall c, context s = Some c -> closeContext eng c = Return tt) /\
  (forall b, browser s = Some b -> closeBrowser eng b = Return tt).

(** The names of the supported engines. *)
Definition supportedBrowserTypes : list jsstring :=
  [JsString.lit "chromium"; JsString.lit "firefox"; JsString.lit "webkit"].

(** *** Failures inside [open] *)

(** [OpenFailure eng kind url s e partial pre]: starting from the fields
    [s], the first step of [open] that fails throws [e]; [partial] are the
    fields at that moment and [pre] the steps taken up to and including the
    failing one. *)
Inductive OpenFailure (eng : Engine) (kind : BrowserKind) (url : jsstring)
    (s : SessionState) : Error -> SessionState -> list Event -> Prop :=
| FailLaunch e :
    launch eng kind = Throw e ->
    OpenFailure eng kind url s e s [EvLaunch kind]
| FailNewContext b e :
    launch eng kind = Return b ->
    newContext eng b = Throw e ->
    OpenFailure eng kind url s e
      (mkSession (Some b) (context s) (page s))
      [EvLaunch kind; EvNewContext b]
| FailNewPage b c e :
    launch eng kind = Return b ->
    newContext eng b = Return c ->
    newPage eng c = Throw e ->
    OpenFailure eng kind url s e
      (mkSession (Some b) (Some c) (page s))
      [EvLaunch kind; EvNewContext b; EvNewPage c]
| FailGoto b c p e :
    launch eng kind = Return b ->
    newContext eng b = Return c ->
    newPage eng c = Return p ->
    goto eng p url = Throw e ->
    OpenFailure eng kind url s e
      (mkSession (Some b) (Some c) (Some p))
      [EvLaunch kind; EvNewContext b; EvNewPage c;
       EvLog (MsgNavigating url); EvGoto p url]
| FailWaitForLoadState b c p e :
    launch eng kind = Return b ->
    newContext eng b = Return c ->
    newPage eng c = Return p ->
    goto eng p url = Return tt ->
    waitForLoadState eng p = Throw e ->
    OpenFailure eng kind url s e
      (mkSession (Some b) (Some c) (Some p))
      [EvLaunch kind; EvNewContext b; EvNewPage c;
       EvLog (MsgNavigating url); EvGoto p url; EvWaitForLoadState p]
| FailWaitForTimeout b c p e :
    launch eng kind = Return b ->
    newContext eng b = Return c ->
    newPage eng c = Return p ->
    goto eng p url = Return tt ->
    waitForLoadState eng p = Return tt ->
    waitForTimeout eng p = Throw e ->
    OpenFailure eng kind url s e
      (mkSession (Some b) (Some c) (Some p))
      [EvLaunch kind; EvNewContext b; EvNewPage c;
       EvLog (MsgNavigating url); EvGoto p url; EvWaitForLoadState p;
       EvWaitForTimeout p].

(** All steps of [open] succeed, ending on page [p]. *)
Definition OpenSucceeds (eng : Engine) (kind : BrowserKind) (url : jsstring)
    (b : Browser) (c : BrowserContext) (p : Page) : Prop :=
  launch eng kind = Return b /\
  newContext eng b = Return c /\
  newPage eng c = Return p /\
  goto eng p url = Return tt /\
  waitForLoadState eng p = Return tt /\
  waitForTimeout eng p = Return tt.

(** *** Between operations *)

(** The fields a manager can have between two method calls: those of a
    new manager, and those left by any method called on such fields. *)
Inductive Reachable (toLowerCase : jsstring -> jsstring) (eng : Engine) :
    SessionState -> Prop :=
| ReachNew : Reachable toLowerCase eng initial
| ReachOpenUrl s url browserType :
    Reachable toLowerCase eng s ->
    Reachable toLowerCase eng (final (openUrl toLowerCase eng url browserType s))
| ReachValidate s yamlFilePath :
    Reachable toLowerCase eng s ->
    Reachable toLowerCase eng (final (validateElementFromData eng yamlFilePath s))
| ReachTeardown s :
    Reachable toLowerCase eng s ->
    Reachable toLowerCase eng (final (teardown eng s)).

(** *** The verdict of a declaration file *)

(** The aggregate over a list of assertions: AND of the per-assertion
    [isMatched]. *)
Definition aggregate (eng : Engine) (p : Page)
    (entries : list (jsstring * ElementData)) : bool :=
  forallb (fun en => isMatched (classify eng p (snd en))) entries.

(** What the run over a declaration file comes to: an unreadable file, a
    file that does not parse, a document without [elements] all count as
    failed; otherwise the aggregate of the assertions decides. *)
Definition verdict (eng : Engine) (p : Page) (yamlFilePath : jsstring) : bool :=
  match readFileSync eng yamlFilePath with
  | Throw _ => false
  | Return fileContent =>
      match yamlLoad eng fileContent with
      | Return (YElements entries) => aggregate eng p entries
      | _ => false
      end
  end.

(** *** URLs *)

(** Two URLs are the same "ignoring a trailing-slash difference". *)
Definition sameUpToFinalSlash (a b : jsstring) : bool :=
  JsString.eqb (JsString.dropFinalSlash a) (JsString.dropFinalSlash b).

(** *** Whitespace *)

Definition startsOnText (s : jsstring) : Prop :=
  match s with
  | [] => True
  | c :: _ => JsString.isWhiteSpace c = false
  end.

Definition endsOnText (s : jsstring) : Prop := startsOnText (rev s).

Definition allWhiteSpace (s : jsstring) : Prop :=
  Forall (fun c => JsString.isWhiteSpace c = true) s.

(* ===================================================================== *)
(** ** The script: [settings.ts], [loadLocatorData] and [main] *)
(* ===================================================================== *)

(** [settings/settings.ts]. *)
Module Settings.

Definition BASEURL : jsstring := JsString.lit "https://www.".
Definition URL : jsstring := BASEURL ++ JsString.lit "tophat.com/".
Definition BROWSER : jsstring := JsString.lit "chromium".

(** Exported, but read neither by [lib.ts] nor by [main]. *)
Definition HEADLESS : bool := false.
Definition TIMEOUT : N := 30000.
Definition VIEWPORT : N * N := (1280, 720)%N.

End Settings.

(** Console lines of [main_script.ts], and the one of [loadLocatorData]. *)
Inductive ScriptMsg :=
| MsgStarting
| MsgRule60
| MsgTargetUrl (url : jsstring)
| MsgBrowserSetting (browserType : jsstring)
| MsgStep1
| MsgStep2
| MsgStep3
| MsgTestPassed
| MsgTestFailed
| MsgCriticalError (error : Error)
| MsgExecutionFailed
| MsgStep4
| MsgCompleted
| MsgUnhandled (error : Error)
| MsgErrorLoading (yamlFilePath : jsstring) (error : Error).

(** What the script does, seen from outside: the steps of the library, its
    own console lines, and the end of the process. *)
Inductive ScriptEvent :=
| FromLib (ev : Event)
| Say (m : ScriptMsg)
| ProcessExit (code : nat).

(** Code outside the class, over whatever state [St] it has. *)
Definition Script (St A : Type) : Type :=
  St -> Completion A * St * list ScriptEvent.

Definition sret {St A} (a : A) : Script St A := fun s => (Return a, s, []).

Definition sthrow {St A} (e : Error) : Script St A := fun s => (Throw e, s, []).

Definition sbind {St A B} (m : Script St A) (k : A -> Script St B) : Script St B :=
  fun s =>
    match m s with
    | (Return a, s1, t1) =>
        match k a s1 with (r, s2, t2) => (r, s2, t1 ++ t2) end
    | (Throw e, s1, t1) => (Throw e, s1, t1)
    end.

(** [try { body } catch (error) { handler }]. *)
Definition stryCatch {St A} (body : Script St A) (handler : Error -> Script St A)
    : Script St A :=
  fun s =>
    match body s with
    | (Return a, s1, t1) => (Return a, s1, t1)
    | (Throw e, s1, t1) =>
        match handler e s1 with (r, s2, t2) => (r, s2, t1 ++ t2) end
    end.

(** [try { body } catch (error) { handler } finally { finalizer }]: the
    finalizer runs on every path; if it throws, its error replaces the
    completion of the rest. *)
Definition stryCatchFinally {St A} (body : Script St A)
    (handler : Error -> Script St A) (finalizer : Script St unit) : Script St A :=
  fun s =>
    match stryCatch body handler s with
    | (r1, s1, t1) =>
        match finalizer s1 with
        | (Return _, s2, t2) => (r1, s2, t1 ++ t2)
        | (Throw e, s2, t2) => (Throw e, s2, t1 ++ t2)
        end
    end.

Definition say {St} (m : ScriptMsg) : Script St unit :=
  fun s => (Return tt, s, [Say m]).

(** A call to the outside world made outside the class. *)
Definition external {St A} (ev : Event) (r : Completion A) : Script St A :=
  fun s => (r, s, [FromLib ev]).

(** A method call on the manager. *)
Definition method {A} (m : M A) : Script SessionState A :=
  fun s => match m s with (r, s1, t1) => (r, s1, List.map FromLib t1) end.

(** [process.exit(code)]; the value is the code the process ends with. *)
Definition processExit {St} (code : nat) : Script St nat :=
  fun s => (Return code, s, [ProcessExit code]).

Declare Scope script_scope.
Delimit Scope script_scope with script.
Notation "x <- m ;; k" := (sbind m (fun x => k))
  (at level 61, m at next level, right associativity) : script_scope.
Notation "m ;; k" := (sbind m (fun _ => k))
  (at level 61, right associativity) : script_scope.

Section MainScript.

Variable toLowerCase : jsstring -> jsstring.
Variable eng : Engine.

(** [path.join(__dirname, "Locators", "locator.yaml")]. *)
Variable locatorFile : jsstring.

Local Open Scope script_scope.

(** *** [loadLocatorData] (lib.ts 194-202) *)

Definition loadLocatorData (yamlFilePath : jsstring) : Script unit YamlDoc :=
  stryCatch
    (fileContent <- external (EvReadFile yamlFilePath) (readFileSync eng yamlFilePath) ;;
     external (EvYamlLoad fileContent) (yamlLoad eng fileContent))
    (fun error =>
       say (MsgErrorLoading yamlFilePath error) ;;
       sthrow error).

(** *** [main] (main_script.ts 10-56) *)

(** The body of [main], run on the fields of the manager it creates; the
    local [exitCode] is the value of the [try] statement. *)
Definition mainBody : Script SessionState nat :=
  say MsgStarting ;;
  say MsgRule60 ;;
  say (MsgTargetUrl Settings.URL) ;;
  say (MsgBrowserSetting Settings.BROWSER) ;;
  say MsgRule60 ;;
  exitCode <-
    stryCatchFinally
      (say MsgStep1 ;;
       method (openUrl toLowerCase eng Settings.URL Settings.BROWSER) ;;
       say MsgStep2 ;;
       validationResult <- method (validateElementFromData eng locatorFile) ;;
       say MsgStep3 ;;
       say MsgRule60 ;;
       exitCode <- (if (validationResult : bool)
                    then say MsgTestPassed ;; sret 0
                    else say MsgTestFailed ;; sret 1) ;;
       say MsgRule60 ;;
       sret exitCode)
      (fun error =>
         say (MsgCriticalError error) ;;
         say MsgExecutionFailed ;;
         sret 1)
      (say MsgStep4 ;;
       method (teardown eng)) ;;
  say MsgCompleted ;;
  processExit exitCode.

(** [const playwrightManager = new PlaywrightManager()]. *)
Definition main : Completion nat * SessionState * list ScriptEvent :=
  mainBody initial.

(** [main().catch(...)] (main_script.ts 59-64): the exit code, the fields
    at exit and everything that happened. *)
Definition script : nat * SessionState * list ScriptEvent :=
  match main with
  | (Return code, s, t) => (code, s, t)
  | (Throw e, s, t) => (1, s, t ++ [Say (MsgUnhandled e); ProcessExit 1])
  end.

End MainScript.

(** *** Vocabulary for the statements about the script *)

(** The three parts of a run of script code. *)
Definition outcome {St A} (r : Completion A * St * list ScriptEvent) : Completion A :=
  fst (fst r).
Definition endState {St A} (r : Completion A * St * list ScriptEvent) : St :=
  snd (fst r).
Definition events {St A} (r : Completion A * St * list ScriptEvent) : list ScriptEvent :=
  snd r.

(** The library steps among the events of a script. *)
Fixpoint libTrace (tr : list ScriptEvent) : list Event :=
  match tr with
  | [] => []
  | FromLib ev :: tr' => ev :: libTrace tr'
  | _ :: tr' => libTrace tr'
  end.

(** The banner [main] starts with. *)
Definition banner : list ScriptEvent :=
  [Say MsgStarting; Say MsgRule60; Say (MsgTargetUrl Settings.URL);
   Say (MsgBrowserSetting Settings.BROWSER); Say MsgRule60].

(** Every release step of the world succeeds. *)
Definition worldReleases (eng : Engine) : Prop :=
  (forall p, closePage eng p = Return tt) /\
  (forall c, closeContext eng c = Return tt) /\
  (forall b, closeBrowser eng b = Return tt).

(** Steps that query the page. *)
Definition isPageQuery (ev : Event) : bool :=
  match ev with
  | EvLocator _ _ | EvIsVisible _ | EvTextContent _ => true
  | _ => false
  end.

(** Steps that open, drive or close the session. *)
Definition isSessionStep (ev : Event) : bool :=
  match ev with
  | EvLaunch _ | EvNewContext _ | EvNewPage _ | EvGoto _ _
  | EvWaitForLoadState _ | EvWaitForTimeout _
  | EvClosePage _ | EvCloseContext _ | EvCloseBrowser _ => true
  | _ => false
  end.

(** The assertions a declaration file gives, when it gives any. *)
Definition declaredEntries (eng : Engine) (yamlFilePath : jsstring)
    : option (list (jsstring * ElementData)) :=
  match readFileSync eng yamlFilePath with
  | Return fileContent =>
      match yamlLoad eng fileContent with
      | Return (YElements entries) => Some entries
      | _ => None
      end
  | Throw _ => None
  end.

(** More worlds for worked examples. *)
Module Worlds.

(** Every selector resolves to a visible element without text content. *)
Definition blankPage : Engine :=
  {| launch := fun _ => Return 1;
     newContext := fun _ => Return 2;
     newPage := fun _ => Return 3;
     goto := fun _ _ => Return tt;
     waitForLoadState := fun _ => Return tt;
     waitForTimeout := fun _ => Return tt;
     pageUrl := fun _ => Demo.requested;
     locatorFirst := fun _ _ => Return 20;
     isVisible := fun _ => Return true;
     textContent := fun _ => Return None;
     closePage := fun _ => Return tt;
     closeContext := fun _ => Return tt;
     closeBrowser := fun _ => Return tt;
     readFileSync := fun _ => Throw (External 2);
     yamlLoad := fun _ => Return YNullish |}.

(** An assertion that expects the empty text. *)
Definition expectsNothing : ElementData :=
  mkElementData (JsString.lit "#spacer") [] (Some []).

(** An assertion whose expected text has a space on each side. *)
Definition expectsPadded : ElementData :=
  mkElementData (JsString.lit "#padded")
    (JsString.lit " Create Your Account ") None.

End Worlds.

(** *** Close calls, handle by handle *)

(** The close calls among the steps of a run, in order. *)
Fixpoint closeCalls (tr : list Event) : list Event :=
  match tr with
  | [] => []
  | EvClosePage p :: tr' => EvClosePage p :: closeCalls tr'
  | EvCloseContext c :: tr' => EvCloseContext c :: closeCalls tr'
  | EvCloseBrowser b :: tr' => EvCloseBrowser b :: closeCalls tr'
  | _ :: tr' => closeCalls tr'
  end.

(** The close calls a session needs, one per field that is set, in the
    order page, context, browser. *)
Definition heldCloses (s : SessionState) : list Event :=
  (match page s with Some p => [EvClosePage p] | None => [] end)
  ++ (match context s with Some c => [EvCloseContext c] | None => [] end)
  ++ (match browser s with Some b => [EvCloseBrowser b] | None => [] end).

(** Whether a close call succeeds in a world. *)
Definition closeSucceeds (eng : Engine) (ev : Event) : bool :=
  match ev with
  | EvClosePage p =>
      match closePage eng p with Return _ => true | Throw _ => false end
  | EvCloseContext c =>
      match closeContext eng c with Return _ => true | Throw _ => false end
  | EvCloseBrowser b =>
      match closeBrowser eng b with Return _ => true | Throw _ => false end
  | _ => false
  end.

(** How many close calls at the head of a list succeed, before the first
    one that throws. *)
Fixpoint leadingSuccesses (eng : Engine) (calls : list Event) : nat :=
  match calls with
  | [] => 0
  | ev :: calls' =>
      if closeSucceeds eng ev then S (leadingSuccesses eng calls') else 0
  end.

(** A world for the failure paths of [openUrl]: navigation throws, and so
    does closing the page afterwards; every other step succeeds. *)
Module FailingWorld.

Definition gotoAndPageCloseThrow : Engine :=
  {| launch := fun _ => Return 1;
     newContext := fun _ => Return 2;
     newPage := fun _ => Return 3;
     goto := fun _ _ => Throw (External 101);
     waitForLoadState := fun _ => Return tt;
     waitForTimeout := fun _ => Return tt;
     pageUrl := fun _ => Demo.requested;
     locatorFirst := fun _ selector => Demo.locate selector;
     isVisible := Demo.visible;
     textContent := Demo.text;
     closePage := fun _ => Throw (External 102);
     closeContext := fun _ => Return tt;
     closeBrowser := fun _ => Return tt;
     readFileSync := fun _ => Return (JsString.lit "elements: ...");
     yamlLoad := fun _ => Return (YElements Demo.fourEntries) |}.

End FailingWorld.

(* ===================================================================== *)
(** ** Facts about JavaScript strings *)
(* ===================================================================== *)

Section StringFacts.

Lemma eqb_eq (a b : jsstring) : JsString.eqb a b = true <-> a = b.
Proof.
  revert b. induction a as [|x a IH]; intros [|y b]; simpl;
    try (split; [discriminate | discriminate]); try tauto.
  rewrite andb_true_iff, N.eqb_eq, IH. split.
  - intros [-> ->]. reflexivity.
  - intros H. injection H as -> ->. split; reflexivity.
Qed.

Lemma eqb_refl (a : jsstring) : JsString.eqb a a = true.
Proof. apply eqb_eq. reflexivity. Qed.

Lemma eqb_neq (a b : jsstring) : JsString.eqb a b = false <-> a <> b.
Proof.
  split.
  - intros H E. apply eqb_eq in E. congruence.
  - intros H. destruct (JsString.eqb a b) eqn:E; [|reflexivity].
    apply eqb_eq in E. contradiction.
Qed.

Lemma trimStart_split (s : jsstring) :
  exists l, s = l ++ JsString.trimStart s /\ allWhiteSpace l /\
            startsOnText (JsString.trimStart s).
Proof.
  induction s as [|c s (l & E & W & T)]; simpl.
  - exists []. repeat split. constructor.
  - destruct (JsString.isWhiteSpace c) eqn:Hc.
    + exists (c :: l). repeat split.
      * simpl. f_equal. exact E.
      * constructor; assumption.
      * exact T.
    + exists []. repeat split.
      * constructor.
      * simpl. exact Hc.
Qed.

Lemma allWhiteSpace_rev (s : jsstring) : allWhiteSpace s -> allWhiteSpace (rev s).
Proof.
  unfold allWhiteSpace. rewrite !Forall_forall. intros H c Hc.
  apply H. apply in_rev. exact Hc.
Qed.

(** [trim] cuts a string into a whitespace head, the result, and a
    whitespace tail; the result neither starts nor ends on whitespace. *)
Lemma trim_split (s : jsstring) :
  exists l r, s = l ++ JsString.trim s ++ r /\
              allWhiteSpace l /\ allWhiteSpace r /\
              startsOnText (JsString.trim s) /\ endsOnText (JsString.trim s).
Proof.
  unfold JsString.trim, JsString.trimEnd.
  destruct (trimStart_split s) as (l & E & Wl & Tl).
  set (u := JsString.trimStart s) in *.
  destruct (trimStart_split (rev u)) as (r & Er & Wr & Tr).
  set (m := JsString.trimStart (rev u)) in *.
  assert (Eu : u = rev m ++ rev r).
  { rewrite <- (rev_involutive u), Er, rev_app_distr. reflexivity. }
  exists l, (rev r). repeat split.
  - rewrite E at 1. f_equal. exact Eu.
  - exact Wl.
  - apply allWhiteSpace_rev. exact Wr.
  - assert (Tm : startsOnText (rev m ++ rev r)) by (rewrite <- Eu; exact Tl).
    destruct (rev m); [exact I | exact Tm].
  - unfold endsOnText. rewrite rev_involutive. exact Tr.
Qed.

(** A string that neither starts nor ends on whitespace is left as it
    is, whatever whitespace it has inside. *)
Lemma trim_fixed (s : jsstring) :
  startsOnText s -> endsOnText s -> JsString.trim s = s.
Proof.
  intros Hs He.
  assert (F : forall u, startsOnText u -> JsString.trimStart u = u).
  { intros [|c u]; simpl; [reflexivity|]. intros ->. reflexivity. }
  unfold JsString.trim, JsString.trimEnd.
  rewrite (F s Hs), (F (rev s) He). apply rev_involutive.
Qed.

Lemma startsWith_app (a b : jsstring) : JsString.startsWith (a ++ b) a = true.
Proof.
  induction a as [|x a IH]; simpl; [destruct b; reflexivity|].
  rewrite N.eqb_refl. exact IH.
Qed.

Lemma dropFinalSlash_split (s : jsstring) :
  exists r, s = JsString.dropFinalSlash s ++ r.
Proof.
  induction s as [|c s (r & E)].
  - exists []. reflexivity.
  - destruct s as [|d s].
    + simpl. destruct (N.eqb c JsString.slash).
      * exists [c]. reflexivity.
      * exists []. reflexivity.
    + exists r. change (JsString.dropFinalSlash (c :: d :: s))
        with (c :: JsString.dropFinalSlash (d :: s)).
      simpl. f_equal. exact E.
Qed.

(** URLs that differ at most by a final slash pass the check of
    [openUrl]. *)
Lemma sameUpToFinalSlash_startsWith (current url : jsstring) :
  sameUpToFinalSlash current url = true ->
  JsString.startsWith current (JsString.dropFinalSlash url) = true.
Proof.
  unfold sameUpToFinalSlash. intros H. apply eqb_eq in H.
  destruct (dropFinalSlash_split current) as (r & E).
  rewrite <- H. rewrite E at 1. apply startsWith_app.
Qed.

Lemma actualTextOf_trimmedText (content : option jsstring) :
  actualTextOf content = trimmedText content.
Proof.
  destruct content as [text|]; simpl; [|reflexivity].
  destruct (JsString.trim text); reflexivity.
Qed.

End StringFacts.

(* ===================================================================== *)
(** ** [teardown] *)
(* ===================================================================== *)

Ltac run_method :=
  unfold tryCatch, bind, getState, call, setPage, setContext, setBrowser,
    log, ret, throw, result, final, trace; simpl.

Section TeardownFacts.

Variable eng : Engine.

(** [teardown] swallows whatever a release step throws. *)
Lemma teardown_never_throws (s : SessionState) :
  result (teardown eng s) = Return tt.
Proof.
  destruct s as [[b|] [c|] [p|]]; unfold teardown; run_method;
    repeat match goal with
           | |- context [closePage eng ?x] => destruct (closePage eng x) as [[]|?]; simpl
           | |- context [closeContext eng ?x] => destruct (closeContext eng x) as [[]|?]; simpl
           | |- context [closeBrowser eng ?x] => destruct (closeBrowser eng x) as [[]|?]; simpl
           end; reflexivity.
Qed.

(** The release steps attempted are an initial part of page, context,
    browser (as far as held), in that order. *)
Lemma teardown_order (s : SessionState) :
  exists n, releases (trace (teardown eng s)) = firstn n (held s).
Proof.
  destruct s as [[b|] [c|] [p|]]; unfold teardown, held; run_method;
    repeat match goal with
           | |- context [closePage eng ?x] => destruct (closePage eng x) as [[]|?]; simpl
           | |- context [closeContext eng ?x] => destruct (closeContext eng x) as [[]|?]; simpl
           | |- context [closeBrowser eng ?x] => destruct (closeBrowser eng x) as [[]|?]; simpl
           end;
    first [ exists 3; reflexivity | exists 2; reflexivity
          | exists 1; reflexivity | exists 0; reflexivity ].
Qed.

(** When no release step throws, everything held is released and the
    fields end up null. *)
Lemma teardown_releases_all (s : SessionState) :
  releasesSucceed eng s ->
  allNull (final (teardown eng s)) /\
  releases (trace (teardown eng s)) = held s /\
  In (EvLog MsgBrowserClosed) (trace (teardown eng s)).
Proof.
  intros (Hp & Hc & Hb).
  destruct s as [[b|] [c|] [p|]]; simpl in *;
    try rewrite (Hp _ eq_refl); try rewrite (Hc _ eq_refl);
    try rewrite (Hb _ eq_refl);
    unfold teardown, held, allNull; run_method;
    try rewrite (Hp _ eq_refl); simpl;
    try rewrite (Hc _ eq_refl); simpl;
    try rewrite (Hb _ eq_refl); simpl;
    repeat split; auto 10.
Qed.

(** Strict nesting of the fields survives [teardown], also when a
    release step throws. *)
Lemma teardown_nested (s : SessionState) :
  nested s -> nested (final (teardown eng s)).
Proof.
  unfold nested.
  destruct s as [[b|] [c|] [p|]]; unfold teardown; run_method;
    repeat match goal with
           | |- context [closePage eng ?x] => destruct (closePage eng x) as [[]|?]; simpl
           | |- context [closeContext eng ?x] => destruct (closeContext eng x) as [[]|?]; simpl
           | |- context [closeBrowser eng ?x] => destruct (closeBrowser eng x) as [[]|?]; simpl
           end; intros [H1 H2]; split; intros H; try congruence;
    try (exfalso; apply H; reflexivity);
    try (apply H1; congruence); try (apply H2; congruence).
Qed.

(** When closing the page throws, nothing else is attempted and the
    fields are left as they were. *)
Lemma teardown_page_failure (s : SessionState) (p : Page) (e : Error) :
  page s = Some p ->
  closePage eng p = Throw e ->
  teardown eng s = (Return tt, s, [EvClosePage p; EvLog (MsgTeardownError e)]).
Proof.
  intros Hp He. destruct s as [b c p']; simpl in Hp; subst p'.
  unfold teardown; run_method. rewrite He. reflexivity.
Qed.

End TeardownFacts.

(* ===================================================================== *)
(** ** [openUrl] *)
(* ===================================================================== *)

Section OpenUrlFacts.

Variable toLowerCase : jsstring -> jsstring.
Variable eng : Engine.

Lemma tryCatch_throw {A} (body : M A) (handler : Error -> M A)
    (s s1 : SessionState) (e : Error) (t1 : list Event)
    (r : Completion A * SessionState * list Event) :
  body s = (Throw e, s1, t1) ->
  handler e s1 = r ->
  tryCatch body handler s = (result r, final r, t1 ++ trace r).
Proof.
  intros Hb Hh. unfold tryCatch. rewrite Hb, Hh.
  destruct r as [[x s2] t2]. reflexivity.
Qed.

Lemma tryCatch_return {A} (body : M A) (handler : Error -> M A)
    (s s1 : SessionState) (a : A) (t1 : list Event) :
  body s = (Return a, s1, t1) ->
  tryCatch body handler s = (Return a, s1, t1).
Proof. intros Hb. unfold tryCatch. rewrite Hb. reflexivity. Qed.

(** The [catch] block of [openUrl]: log, tear down, throw again. *)
Lemma openUrl_catch {A} (url : jsstring) (e : Error) (s : SessionState) :
  (log (MsgErrorOpening url e) ;; teardown eng ;; (throw e : M A))%js s
  = (Throw e, final (teardown eng s),
     EvLog (MsgErrorOpening url e) :: trace (teardown eng s)).
Proof.
  pose proof (teardown_never_throws eng s) as H.
  unfold bind, log, throw, result, final, trace in *.
  destruct (teardown eng s) as [[r s'] tr]. simpl in *. subst r.
  rewrite app_nil_r. reflexivity.
Qed.

Lemma browserKindOf_None (browserType : jsstring) :
  ~ In (toLowerCase browserType) supportedBrowserTypes <->
  browserKindOf toLowerCase browserType = None.
Proof.
  unfold browserKindOf, supportedBrowserTypes. simpl.
  destruct (JsString.eqb (toLowerCase browserType) (JsString.lit "chromium")) eqn:E1.
  { apply eqb_eq in E1. split; [intros H; exfalso; apply H; auto | discriminate]. }
  destruct (JsString.eqb (toLowerCase browserType) (JsString.lit "firefox")) eqn:E2.
  { apply eqb_eq in E2. split; [intros H; exfalso; apply H; auto | discriminate]. }
  destruct (JsString.eqb (toLowerCase browserType) (JsString.lit "webkit")) eqn:E3.
  { apply eqb_eq in E3. split; [intros H; exfalso; apply H; auto | discriminate]. }
  apply eqb_neq in E1, E2, E3. split; [reflexivity|].
  intros _ [H|[H|[H|[]]]]; congruence.
Qed.

Ltac run_body :=
  run_method;
  repeat (match goal with
          | H : ?x = _ |- context [?x] => rewrite H
          end; simpl);
  try reflexivity.

Lemma openUrl_unsupported (url browserType : jsstring) (s : SessionState) :
  browserKindOf toLowerCase browserType = None ->
  openUrl toLowerCase eng url browserType s
  = (Throw (UnsupportedBrowserType browserType), final (teardown eng s),
     EvLog (MsgErrorOpening url (UnsupportedBrowserType browserType))
       :: trace (teardown eng s)).
Proof.
  intros H. unfold openUrl.
  eapply eq_trans;
    [ eapply tryCatch_throw; [ run_body | apply openUrl_catch ]
    | reflexivity ].
Qed.

Lemma openUrl_failure (url browserType : jsstring) (kind : BrowserKind)
    (s partial : SessionState) (e : Error) (pre : list Event) :
  browserKindOf toLowerCase browserType = Some kind ->
  OpenFailure eng kind url s e partial pre ->
  openUrl toLowerCase eng url browserType s
  = (Throw e, final (teardown eng partial),
     pre ++ EvLog (MsgErrorOpening url e) :: trace (teardown eng partial)).
Proof.
  intros Hk HF. unfold openUrl.
  destruct HF;
    (eapply eq_trans;
     [ eapply tryCatch_throw; [ run_body | apply openUrl_catch ]
     | reflexivity ]).
Qed.

Lemma openUrl_success (url browserType : jsstring) (kind : BrowserKind)
    (s : SessionState) (b : Browser) (c : BrowserContext) (p : Page) :
  browserKindOf toLowerCase browserType = Some kind ->
  OpenSucceeds eng kind url b c p ->
  openUrl toLowerCase eng url browserType s
  = (Return p, mkSession (Some b) (Some c) (Some p),
     [EvLaunch kind; EvNewContext b; EvNewPage c;
      EvLog (MsgNavigating url); EvGoto p url;
      EvWaitForLoadState p; EvWaitForTimeout p;
      EvLog (if JsString.startsWith (pageUrl eng p) (JsString.dropFinalSlash url)
             then MsgNavigated (pageUrl eng p)
             else MsgUrlWarning (pageUrl eng p) url)]).
Proof.
  intros Hk (H1 & H2 & H3 & H4 & H5 & H6). unfold openUrl.
  apply tryCatch_return. run_body.
  destruct (JsString.startsWith (pageUrl eng p) (JsString.dropFinalSlash url));
    reflexivity.
Qed.

End OpenUrlFacts.

(* ===================================================================== *)
(** ** Session lifecycle: statements about [teardown] and [openUrl] *)
(* ===================================================================== *)

Lemma releases_app (t1 t2 : list Event) :
  releases (t1 ++ t2) = releases t1 ++ releases t2.
Proof.
  induction t1 as [|ev t1 IH]; simpl; [reflexivity|].
  destruct ev; simpl; rewrite IH; reflexivity.
Qed.

Lemma teardown_no_acquisition (eng : Engine) (s : SessionState) :
  Forall (fun ev => isAcquisition ev = false) (trace (teardown eng s)).
Proof.
  destruct s as [[b|] [c|] [p|]]; unfold teardown; run_method;
    repeat match goal with
           | |- context [closePage eng ?x] => destruct (closePage eng x) as [[]|?]; simpl
           | |- context [closeContext eng ?x] => destruct (closeContext eng x) as [[]|?]; simpl
           | |- context [closeBrowser eng ?x] => destruct (closeBrowser eng x) as [[]|?]; simpl
           end; repeat constructor.
Qed.

(** C2, at the failing input.  The session holds browser 1, context 2 and
    page 3, and closing the page throws: [teardown] returns normally after
    one release attempt (the page) and one console line; the context and
    the browser, both still held, are never asked to close. *)
Theorem teardown_page_close_failure_skips_context_and_browser :
  teardown Demo.pageCloseThrows Demo.opened
  = (Return tt, Demo.opened,
     [EvClosePage 3; EvLog (MsgTeardownError (External 1))])
  /\ held Demo.opened = [RPage; RContext; RBrowser]
  /\ releases (trace (teardown Demo.pageCloseThrows Demo.opened)) = [RPage].
Proof. repeat split. Qed.

(** C8, at the failing input.  With the same session and the same world,
    [teardown] completes (it returns, without throwing) and leaves all
    three fields set, although the fields were strictly nested before and
    still are after. *)
Theorem teardown_completes_with_fields_still_set :
  result (teardown Demo.pageCloseThrows Demo.opened) = Return tt
  /\ page (final (teardown Demo.pageCloseThrows Demo.opened)) = Some 3
  /\ context (final (teardown Demo.pageCloseThrows Demo.opened)) = Some 2
  /\ browser (final (teardown Demo.pageCloseThrows Demo.opened)) = Some 1
  /\ ~ allNull (final (teardown Demo.pageCloseThrows Demo.opened)).
Proof.
  repeat split. intros (H & _). discriminate H.
Qed.

(** C6.  When the lower-cased [browserType] is none of the supported
    names, [openUrl] throws the unsupported-browser error, and its whole
    run consists of the error line followed by [teardown] of the fields as
    they were: no launch, no context or page creation and no navigation
    is attempted. *)
Theorem openUrl_unsupported_acquires_nothing
    (toLowerCase : jsstring -> jsstring) (eng : Engine)
    (url browserType : jsstring) (s : SessionState) :
  ~ In (toLowerCase browserType) supportedBrowserTypes ->
  result (openUrl toLowerCase eng url browserType s)
    = Throw (UnsupportedBrowserType browserType)
  /\ trace (openUrl toLowerCase eng url browserType s)
     = EvLog (MsgErrorOpening url (UnsupportedBrowserType browserType))
         :: trace (teardown eng s)
  /\ Forall (fun ev => isAcquisition ev = false)
       (trace (openUrl toLowerCase eng url browserType s))
  /\ (s = initial -> final (openUrl toLowerCase eng url browserType s) = initial).
Proof.
  intros H. apply browserKindOf_None in H.
  rewrite (@openUrl_unsupported toLowerCase eng url browserType s H).
  unfold result, final, trace; simpl. repeat split.
  - constructor; [reflexivity | apply teardown_no_acquisition].
  - intros ->. reflexivity.
Qed.

Lemma openUrl_unsupported_acquires_nothing_witness :
  ~ In (Demo.asciiLower (JsString.lit "Opera")) supportedBrowserTypes
  /\ result (openUrl Demo.asciiLower Demo.healthy Demo.requested
               (JsString.lit "Opera") initial)
     = Throw (UnsupportedBrowserType (JsString.lit "Opera")).
Proof.
  assert (H : ~ In (Demo.asciiLower (JsString.lit "Opera")) supportedBrowserTypes).
  { intros [H|[H|[H|[]]]]; discriminate H. }
  split; [exact H|].
  apply (@openUrl_unsupported_acquires_nothing Demo.asciiLower Demo.healthy
           Demo.requested (JsString.lit "Opera") initial H).
Defined.

(** The catch block of [openUrl].  Whichever step fails first (launch,
    context creation, page creation, navigation or one of the two waits),
    the run is: the steps up to the failing one, the error line, then
    [teardown] of the fields as they are at that moment; the fields
    afterwards are those [teardown] leaves, and the error thrown to the
    caller is the very error of the failing step.  When the release steps
    of that [teardown] succeed, everything held is released and the fields
    end up null. *)
Theorem openUrl_failure_tears_down_and_rethrows
    (toLowerCase : jsstring -> jsstring) (eng : Engine)
    (url browserType : jsstring) (kind : BrowserKind)
    (s partial : SessionState) (e : Error) (pre : list Event) :
  browserKindOf toLowerCase browserType = Some kind ->
  OpenFailure eng kind url s e partial pre ->
  result (openUrl toLowerCase eng url browserType s) = Throw e
  /\ final (openUrl toLowerCase eng url browserType s)
     = final (teardown eng partial)
  /\ trace (openUrl toLowerCase eng url browserType s)
     = pre ++ EvLog (MsgErrorOpening url e) :: trace (teardown eng partial)
  /\ (releasesSucceed eng partial ->
      allNull (final (openUrl toLowerCase eng url browserType s))
      /\ releases (trace (openUrl toLowerCase eng url browserType s))
         = held partial).
Proof.
  intros Hk HF.
  rewrite (@openUrl_failure toLowerCase eng url browserType kind s partial e pre Hk HF).
  unfold result, final, trace; simpl.
  do 3 (split; [reflexivity|]).
  intros H. destruct (teardown_releases_all eng partial H) as (Hn & Hr & _). split.
  - exact Hn.
  - rewrite releases_app. simpl.
    unfold trace in Hr. rewrite Hr.
    destruct HF; reflexivity.
Qed.

Lemma openUrl_failure_tears_down_and_rethrows_witness :
  result (openUrl Demo.asciiLower Demo.newPageThrows Demo.requested
            (JsString.lit "chromium") initial) = Throw (External 2)
  /\ final (openUrl Demo.asciiLower Demo.newPageThrows Demo.requested
              (JsString.lit "chromium") initial)
     = final (teardown Demo.newPageThrows (mkSession (Some 1) (Some 2) None)).
Proof.
  assert (Hk : browserKindOf Demo.asciiLower (JsString.lit "chromium") = Some Chromium)
    by reflexivity.
  assert (HF : OpenFailure Demo.newPageThrows Chromium Demo.requested initial
                 (External 2) (mkSession (Some 1) (Some 2) None)
                 [EvLaunch Chromium; EvNewContext 1; EvNewPage 2]).
  { apply (@FailNewPage Demo.newPageThrows Chromium Demo.requested initial 1 2 (External 2));
      reflexivity. }
  destruct (@openUrl_failure_tears_down_and_rethrows Demo.asciiLower
              Demo.newPageThrows Demo.requested (JsString.lit "chromium")
              Chromium initial _ _ _ Hk HF) as (H1 & H2 & _).
  split; [exact H1 | exact H2].
Defined.

(** C7, at the failing input.  A new manager opens Chromium; launch,
    context and page creation succeed, navigation throws, and closing the
    page throws as well.  [openUrl] does throw the navigation error to the
    caller, but the teardown in its catch block stops at the page: the
    context and the browser it had acquired are never asked to close, and
    all three fields stay set. *)
Theorem openUrl_failure_leaves_context_and_browser_open :
  openUrl Demo.asciiLower FailingWorld.gotoAndPageCloseThrow Demo.requested
    (JsString.lit "chromium") initial
  = (Throw (External 101), mkSession (Some 1) (Some 2) (Some 3),
     [EvLaunch Chromium; EvNewContext 1; EvNewPage 2;
      EvLog (MsgNavigating Demo.requested); EvGoto 3 Demo.requested;
      EvLog (MsgErrorOpening Demo.requested (External 101));
      EvClosePage 3; EvLog (MsgTeardownError (External 102))])
  /\ held (final (openUrl Demo.asciiLower FailingWorld.gotoAndPageCloseThrow
                    Demo.requested (JsString.lit "chromium") initial))
     = [RPage; RContext; RBrowser]
  /\ releases (trace (openUrl Demo.asciiLower FailingWorld.gotoAndPageCloseThrow
                        Demo.requested (JsString.lit "chromium") initial))
     = [RPage]
  /\ ~ allNull (final (openUrl Demo.asciiLower FailingWorld.gotoAndPageCloseThrow
                         Demo.requested (JsString.lit "chromium") initial)).
Proof.
  split; [reflexivity|]. split; [reflexivity|]. split; [reflexivity|].
  intros (H & _). discriminate H.
Qed.

(** Strict nesting of the fields survives [openUrl], on every path. *)
Lemma openUrl_nested (toLowerCase : jsstring -> jsstring) (eng : Engine)
    (url browserType : jsstring) (s : SessionState) :
  nested s -> nested (final (openUrl toLowerCase eng url browserType s)).
Proof.
  intros Hn.
  assert (T : forall partial e pre kind,
             browserKindOf toLowerCase browserType = Some kind ->
             nested partial ->
             OpenFailure eng kind url s e partial pre ->
             nested (final (openUrl toLowerCase eng url browserType s))).
  { intros partial e pre kind Hk Hp HF.
    rewrite (@openUrl_failure toLowerCase eng url browserType kind s partial e pre Hk HF).
    apply teardown_nested. exact Hp. }
  assert (N1 : forall b, nested (mkSession (Some b) (context s) (page s))).
  { intros b. destruct Hn as [H1 H2]. split; simpl; [exact H1 | discriminate]. }
  assert (N2 : forall b c, nested (mkSession (Some b) (Some c) (page s))).
  { intros b c. split; simpl; discriminate. }
  assert (N3 : forall b c p, nested (mkSession (Some b) (Some c) (Some p))).
  { intros b c p. split; simpl; discriminate. }
  destruct (browserKindOf toLowerCase browserType) as [kind|] eqn:Hk.
  2:{ rewrite (@openUrl_unsupported toLowerCase eng url browserType s Hk).
      apply teardown_nested. exact Hn. }
  destruct (launch eng kind) as [b|e] eqn:E1.
  2:{ eapply T; [reflexivity | exact Hn | apply FailLaunch; exact E1]. }
  destruct (newContext eng b) as [c|e] eqn:E2.
  2:{ eapply T; [reflexivity | apply (N1 b) | eapply FailNewContext; eassumption]. }
  destruct (newPage eng c) as [p|e] eqn:E3.
  2:{ eapply T; [reflexivity | apply (N2 b c) | eapply FailNewPage; eassumption]. }
  destruct (goto eng p url) as [[]|e] eqn:E4.
  2:{ eapply T; [reflexivity | apply (N3 b c p) | eapply FailGoto; eassumption]. }
  destruct (waitForLoadState eng p) as [[]|e] eqn:E5.
  2:{ eapply T; [reflexivity | apply (N3 b c p) | eapply FailWaitForLoadState; eassumption]. }
  destruct (waitForTimeout eng p) as [[]|e] eqn:E6.
  2:{ eapply T; [reflexivity | apply (N3 b c p) | eapply FailWaitForTimeout; eassumption]. }
  rewrite (@openUrl_success toLowerCase eng url browserType kind s b c p Hk).
  - apply N3.
  - repeat split; assumption.
Qed.

(** C9, as stated, fails here.  The requested URL is
    [https://www.tophat.com/] and the page ends on
    [https://www.tophat.com/login]: the two differ by more than a final
    slash, yet [openUrl] logs no warning; it logs the success line. *)
Lemma openUrl_longer_url_is_not_warned :
  sameUpToFinalSlash Demo.loginUrl Demo.requested = false
  /\ result (openUrl Demo.asciiLower Demo.redirectsToLogin Demo.requested
               (JsString.lit "chromium") initial) = Return 3
  /\ ~ In (EvLog (MsgUrlWarning Demo.loginUrl Demo.requested))
          (trace (openUrl Demo.asciiLower Demo.redirectsToLogin Demo.requested
                    (JsString.lit "chromium") initial))
  /\ In (EvLog (MsgNavigated Demo.loginUrl))
        (trace (openUrl Demo.asciiLower Demo.redirectsToLogin Demo.requested
                  (JsString.lit "chromium") initial)).
Proof.
  split; [reflexivity|]. split; [reflexivity|]. split.
  - vm_compute. intros H.
    repeat (destruct H as [H|H]; [discriminate H|]). exact H.
  - vm_compute. do 7 right. left. reflexivity.
Qed.

(** C9, amended.  When every step of [openUrl] succeeds, the page handle
    is returned and nothing is thrown, whatever the resolved URL is.  The
    last console line is the success line when the resolved URL starts
    with the requested URL minus one final slash, and the warning
    otherwise; URLs that are the same up to a final slash always get the
    success line. *)
Theorem openUrl_url_check_is_prefix_and_never_fatal
    (toLowerCase : jsstring -> jsstring) (eng : Engine)
    (url browserType : jsstring) (kind : BrowserKind) (s : SessionState)
    (b : Browser) (c : BrowserContext) (p : Page) :
  browserKindOf toLowerCase browserType = Some kind ->
  OpenSucceeds eng kind url b c p ->
  openUrl toLowerCase eng url browserType s
  = (Return p, mkSession (Some b) (Some c) (Some p),
     [EvLaunch kind; EvNewContext b; EvNewPage c;
      EvLog (MsgNavigating url); EvGoto p url;
      EvWaitForLoadState p; EvWaitForTimeout p;
      EvLog (if JsString.startsWith (pageUrl eng p) (JsString.dropFinalSlash url)
             then MsgNavigated (pageUrl eng p)
             else MsgUrlWarning (pageUrl eng p) url)])
  /\ (sameUpToFinalSlash (pageUrl eng p) url = true ->
      JsString.startsWith (pageUrl eng p) (JsString.dropFinalSlash url) = true).
Proof.
  intros Hk Hs. split.
  - apply openUrl_success with (kind := kind); assumption.
  - apply sameUpToFinalSlash_startsWith.
Qed.

Lemma openUrl_url_check_is_prefix_and_never_fatal_witness :
  openUrl Demo.asciiLower Demo.healthy Demo.requested (JsString.lit "chromium") initial
  = (Return 3, Demo.opened,
     [EvLaunch Chromium; EvNewContext 1; EvNewPage 2;
      EvLog (MsgNavigating Demo.requested); EvGoto 3 Demo.requested;
      EvWaitForLoadState 3; EvWaitForTimeout 3;
      EvLog (MsgUrlWarning Demo.redirected Demo.requested)]).
Proof.
  assert (Hk : browserKindOf Demo.asciiLower (JsString.lit "chromium") = Some Chromium)
    by reflexivity.
  assert (Hs : OpenSucceeds Demo.healthy Chromium Demo.requested 1 2 3)
    by (repeat split).
  exact (proj1 (@openUrl_url_check_is_prefix_and_never_fatal Demo.asciiLower
                  Demo.healthy Demo.requested (JsString.lit "chromium")
                  Chromium initial 1 2 3 Hk Hs)).
Defined.

(* ===================================================================== *)
(** ** [validateElementFromData] *)
(* ===================================================================== *)

Section ValidateFacts.

Variable eng : Engine.

Lemma reported_app (t1 t2 : list Event) :
  reported (t1 ++ t2) = reported t1 ++ reported t2.
Proof.
  induction t1 as [|ev t1 IH]; simpl; [reflexivity|].
  destruct ev; simpl; try exact IH.
  destruct (statusOfLine m); simpl; rewrite IH; reflexivity.
Qed.

Lemma resolved_app (t1 t2 : list Event) :
  resolved (t1 ++ t2) = resolved t1 ++ resolved t2.
Proof.
  induction t1 as [|ev t1 IH]; simpl; [reflexivity|].
  destruct ev; simpl; rewrite IH; reflexivity.
Qed.

Lemma announced_app (t1 t2 : list Event) :
  announced (t1 ++ t2) = announced t1 ++ announced t2.
Proof.
  induction t1 as [|ev t1 IH]; simpl; [reflexivity|].
  destruct ev; simpl; try exact IH.
  destruct m; simpl; rewrite IH; reflexivity.
Qed.

Lemma bind_getState {A} (k : SessionState -> M A) (s : SessionState) :
  bind getState k s = k s s.
Proof.
  unfold bind, getState. destruct (k s s) as [[r s'] t]. reflexivity.
Qed.

Lemma classify_Matched (p : Page) (a : ElementData) :
  classify eng p a = Matched <-> VisibleWithExpectedText eng p a.
Proof.
  unfold classify, VisibleWithExpectedText. split.
  - destruct (locatorFirst eng p (locator a)) as [element|] eqn:E1; [|discriminate].
    destruct (isVisible eng element) as [[|]|] eqn:E2; try discriminate.
    destruct (textContent eng element) as [content|] eqn:E3; [|discriminate].
    destruct (JsString.eqb (trimmedText content) (expected_text a)) eqn:E4;
      [|discriminate].
    intros _. exists element, content. apply eqb_eq in E4. auto.
  - intros (element & content & E1 & E2 & E3 & E4).
    rewrite E1, E2, E3, E4, eqb_refl. reflexivity.
Qed.

Lemma isMatched_true (st : Status) : isMatched st = true <-> st = Matched.
Proof. destruct st; simpl; split; congruence. Qed.

(** One turn of the loop: it never throws, leaves the fields alone,
    announces the assertion, resolves its selector once and reports the
    one verdict [classify] gives. *)
Lemma validateElement_run (p : Page) (allPassed : bool)
    (entry : jsstring * ElementData) (s : SessionState) :
  result (validateElement eng p allPassed entry s)
    = Return (allPassed && isMatched (classify eng p (snd entry)))
  /\ final (validateElement eng p allPassed entry s) = s
  /\ reported (trace (validateElement eng p allPassed entry s))
     = [classify eng p (snd entry)]
  /\ resolved (trace (validateElement eng p allPassed entry s))
     = [(p, locator (snd entry))]
  /\ announced (trace (validateElement eng p allPassed entry s))
     = [descriptionOf (fst entry) (snd entry)].
Proof.
  destruct entry as [elementName a]. unfold validateElement, classify.
  run_method.
  destruct (locatorFirst eng p (locator a)) as [element|e]; simpl.
  2:{ rewrite andb_false_r. repeat split. }
  destruct (isVisible eng element) as [[|]|e]; simpl.
  - destruct (textContent eng element) as [content|e]; simpl.
    + rewrite actualTextOf_trimmedText.
      destruct (JsString.eqb (trimmedText content) (expected_text a)); simpl.
      * rewrite andb_true_r. repeat split.
      * rewrite andb_false_r. repeat split.
    + rewrite andb_false_r. repeat split.
  - rewrite andb_false_r. repeat split.
  - rewrite andb_false_r. repeat split.
Qed.

Lemma validateLoop_run (p : Page) (entries : list (jsstring * ElementData))
    (allPassed : bool) (s : SessionState) :
  result (validateLoop eng p allPassed entries s)
    = Return (allPassed && aggregate eng p entries)
  /\ final (validateLoop eng p allPassed entries s) = s
  /\ reported (trace (validateLoop eng p allPassed entries s))
     = List.map (fun en => classify eng p (snd en)) entries
  /\ resolved (trace (validateLoop eng p allPassed entries s))
     = List.map (fun en => (p, locator (snd en))) entries
  /\ announced (trace (validateLoop eng p allPassed entries s))
     = List.map (fun en => descriptionOf (fst en) (snd en)) entries.
Proof.
  revert allPassed.
  induction entries as [|entry rest IH]; intros allPassed.
  - simpl. unfold ret, result, final, trace; simpl.
    rewrite andb_true_r. repeat split.
  - simpl validateLoop. unfold bind.
    destruct (validateElement_run p allPassed entry s) as (R1 & F1 & P1 & Q1 & A1).
    destruct (validateElement eng p allPassed entry s) as [[r1 s1] t1].
    unfold result, final, trace in R1, F1, P1, Q1, A1. simpl in *. subst r1 s1.
    destruct (IH (allPassed && isMatched (classify eng p (snd entry))))
      as (R2 & F2 & P2 & Q2 & A2).
    destruct (validateLoop eng p _ rest s) as [[r2 s2] t2].
    unfold result, final, trace in *. simpl in *. subst r2 s2.
    rewrite reported_app, resolved_app, announced_app, P1, Q1, A1, P2, Q2, A2.
    unfold aggregate. simpl. rewrite andb_assoc. repeat split.
Qed.

(** The run over a declaration whose [elements] are [entries]. *)
Lemma validateElementFromData_entries (yamlFilePath fileContent : jsstring)
    (s : SessionState) (p : Page) (entries : list (jsstring * ElementData)) :
  page s = Some p ->
  readFileSync eng yamlFilePath = Return fileContent ->
  yamlLoad eng fileContent = Return (YElements entries) ->
  validateElementFromData eng yamlFilePath s
  = (Return (aggregate eng p entries), s,
     [EvReadFile yamlFilePath; EvYamlLoad fileContent;
      EvLog (MsgValidatingCount (List.length entries))]
     ++ trace (validateLoop eng p true entries s)
     ++ [EvLog MsgRule;
         EvLog (if aggregate eng p entries then MsgAllPassed else MsgSomeFailed);
         EvLog MsgRule]).
Proof.
  intros Hp Hr Hy. unfold validateElementFromData.
  rewrite bind_getState, Hp.
  apply tryCatch_return.
  unfold bind, call, elementsOf, log, ret. rewrite Hr, Hy.
  destruct (validateLoop_run p entries true s) as (R & F & _).
  destruct (validateLoop eng p true entries s) as [[r s'] t].
  unfold result, final, trace in *. simpl in *. subst r s'.
  destruct (aggregate eng p entries); reflexivity.
Qed.

(** The run when the file cannot be used: nothing is evaluated. *)
Lemma validateElementFromData_unreadable (yamlFilePath : jsstring)
    (s : SessionState) (p : Page) (e : Error) :
  page s = Some p ->
  readFileSync eng yamlFilePath = Throw e ->
  validateElementFromData eng yamlFilePath s
  = (Return false, s, [EvReadFile yamlFilePath; EvLog (MsgErrorValidating e)]).
Proof.
  intros Hp Hr. unfold validateElementFromData.
  rewrite bind_getState, Hp.
  unfold tryCatch, bind, call, log, ret. rewrite Hr. reflexivity.
Qed.

Lemma validateElementFromData_unparsed (yamlFilePath fileContent : jsstring)
    (s : SessionState) (p : Page) (e : Error) :
  page s = Some p ->
  readFileSync eng yamlFilePath = Return fileContent ->
  yamlLoad eng fileContent = Throw e ->
  validateElementFromData eng yamlFilePath s
  = (Return false, s,
     [EvReadFile yamlFilePath; EvYamlLoad fileContent; EvLog (MsgErrorValidating e)]).
Proof.
  intros Hp Hr Hy. unfold validateElementFromData.
  rewrite bind_getState, Hp.
  unfold tryCatch, bind, call, log, ret. rewrite Hr, Hy. reflexivity.
Qed.

Lemma validateElementFromData_no_elements (yamlFilePath fileContent : jsstring)
    (s : SessionState) (p : Page) (data : YamlDoc) :
  page s = Some p ->
  readFileSync eng yamlFilePath = Return fileContent ->
  yamlLoad eng fileContent = Return data ->
  (forall entries, data <> YElements entries) ->
  validateElementFromData eng yamlFilePath s
  = (Return false, s,
     [EvReadFile yamlFilePath; EvYamlLoad fileContent;
      EvLog (MsgErrorValidating
               (match data with YNullish => TypeError | _ => MissingElementsKey end))]).
Proof.
  intros Hp Hr Hy Hd. unfold validateElementFromData.
  rewrite bind_getState, Hp.
  unfold tryCatch, bind, call, log, ret, elementsOf, throw. rewrite Hr, Hy.
  destruct data as [| |entries]; try reflexivity.
  exfalso. apply (Hd entries). reflexivity.
Qed.

Lemma validateElementFromData_no_page (yamlFilePath : jsstring) (s : SessionState) :
  page s = None ->
  validateElementFromData eng yamlFilePath s = (Throw PageNotInitialized, s, []).
Proof.
  intros Hp. unfold validateElementFromData.
  rewrite bind_getState, Hp. reflexivity.
Qed.

(** With a page, the run returns the verdict of the file. *)
Lemma validateElementFromData_verdict (yamlFilePath : jsstring)
    (s : SessionState) (p : Page) :
  page s = Some p ->
  result (validateElementFromData eng yamlFilePath s)
    = Return (verdict eng p yamlFilePath)
  /\ final (validateElementFromData eng yamlFilePath s) = s.
Proof.
  intros Hp. unfold verdict.
  destruct (readFileSync eng yamlFilePath) as [fileContent|e] eqn:Hr.
  2:{ rewrite (validateElementFromData_unreadable yamlFilePath s p e Hp Hr). split; reflexivity. }
  destruct (yamlLoad eng fileContent) as [data|e] eqn:Hy.
  2:{ rewrite (validateElementFromData_unparsed yamlFilePath fileContent s p e Hp Hr Hy). split; reflexivity. }
  destruct data as [| |entries].
  - rewrite (validateElementFromData_no_elements yamlFilePath fileContent s p _ Hp Hr Hy); [split; reflexivity|].
    discriminate.
  - rewrite (validateElementFromData_no_elements yamlFilePath fileContent s p _ Hp Hr Hy); [split; reflexivity|].
    discriminate.
  - rewrite (validateElementFromData_entries yamlFilePath fileContent s p entries Hp Hr Hy). split; reflexivity.
Qed.

End ValidateFacts.

(* ===================================================================== *)
(** ** Assertion evaluation: statements about [validateElementFromData] *)
(* ===================================================================== *)

(** C1.  For a declaration with assertions [entries], evaluated against
    page [p], [validateElementFromData] returns a boolean that is the AND
    of the per-assertion [isMatched]: it is [true] exactly when every
    assertion finds a visible resolved element whose trimmed text equals
    its expected text, and one assertion with any other outcome makes it
    [false]. *)
Theorem validate_true_iff_every_assertion_matched
    (eng : Engine) (yamlFilePath fileContent : jsstring) (s : SessionState)
    (p : Page) (entries : list (jsstring * ElementData)) :
  page s = Some p ->
  readFileSync eng yamlFilePath = Return fileContent ->
  yamlLoad eng fileContent = Return (YElements entries) ->
  exists allPassed,
    result (validateElementFromData eng yamlFilePath s) = Return allPassed
    /\ allPassed = forallb (fun en => isMatched (classify eng p (snd en))) entries
    /\ (allPassed = true <->
        Forall (fun en => VisibleWithExpectedText eng p (snd en)) entries)
    /\ (forall en, In en entries -> classify eng p (snd en) <> Matched ->
        allPassed = false).
Proof.
  intros Hp Hr Hy. exists (aggregate eng p entries).
  rewrite (validateElementFromData_entries eng yamlFilePath fileContent s p entries Hp Hr Hy).
  split; [reflexivity|]. split; [reflexivity|].
  assert (Hiff : aggregate eng p entries = true <->
                 Forall (fun en => classify eng p (snd en) = Matched) entries).
  { unfold aggregate. rewrite forallb_forall, Forall_forall.
    split; intros H en Hin; apply isMatched_true, H, Hin. }
  split.
  - rewrite Hiff, !Forall_forall.
    split; intros H en Hin; apply classify_Matched, H, Hin.
  - intros en Hin Hne.
    destruct (aggregate eng p entries) eqn:E; [|reflexivity].
    exfalso. apply Hne.
    destruct Hiff as [Hiff _]. specialize (Hiff eq_refl).
    rewrite Forall_forall in Hiff. apply Hiff, Hin.
Qed.

Lemma validate_true_iff_every_assertion_matched_witness :
  exists allPassed,
    result (validateElementFromData Demo.allMatching Demo.yamlPath Demo.opened)
      = Return allPassed
    /\ allPassed = forallb (fun en => isMatched (classify Demo.allMatching 3 (snd en)))
                     Demo.twoMatching
    /\ (allPassed = true <->
        Forall (fun en => VisibleWithExpectedText Demo.allMatching 3 (snd en))
          Demo.twoMatching)
    /\ (forall en, In en Demo.twoMatching ->
        classify Demo.allMatching 3 (snd en) <> Matched -> allPassed = false).
Proof.
  apply (validate_true_iff_every_assertion_matched Demo.allMatching Demo.yamlPath
           (JsString.lit "elements: ...") Demo.opened 3 Demo.twoMatching);
    reflexivity.
Defined.

(** C3.  For a declaration with assertions [entries], the run announces
    every assertion, resolves every assertion's selector against the page
    and reports exactly one verdict per assertion, all in input order; the
    verdict of an assertion is the one [classify] gives for that assertion
    alone, whatever the verdicts before it were. *)
Theorem validate_reports_one_outcome_per_assertion_in_order
    (eng : Engine) (yamlFilePath fileContent : jsstring) (s : SessionState)
    (p : Page) (entries : list (jsstring * ElementData)) :
  page s = Some p ->
  readFileSync eng yamlFilePath = Return fileContent ->
  yamlLoad eng fileContent = Return (YElements entries) ->
  reported (trace (validateElementFromData eng yamlFilePath s))
    = List.map (fun en => classify eng p (snd en)) entries
  /\ resolved (trace (validateElementFromData eng yamlFilePath s))
     = List.map (fun en => (p, locator (snd en))) entries
  /\ announced (trace (validateElementFromData eng yamlFilePath s))
     = List.map (fun en => descriptionOf (fst en) (snd en)) entries
  /\ List.length (reported (trace (validateElementFromData eng yamlFilePath s)))
     = List.length entries.
Proof.
  intros Hp Hr Hy.
  assert (Ht : trace (validateElementFromData eng yamlFilePath s)
               = [EvReadFile yamlFilePath; EvYamlLoad fileContent;
                  EvLog (MsgValidatingCount (List.length entries))]
                 ++ trace (validateLoop eng p true entries s)
                 ++ [EvLog MsgRule;
                     EvLog (if aggregate eng p entries
                            then MsgAllPassed else MsgSomeFailed);
                     EvLog MsgRule]).
  { rewrite (validateElementFromData_entries eng yamlFilePath fileContent s p
               entries Hp Hr Hy). reflexivity. }
  rewrite Ht. clear Ht.
  destruct (validateLoop_run eng p entries true s) as (_ & _ & P & Q & A).
  rewrite !reported_app, !resolved_app, !announced_app, P, Q, A.
  assert (E : reported [EvLog MsgRule;
                        EvLog (if aggregate eng p entries
                               then MsgAllPassed else MsgSomeFailed);
                        EvLog MsgRule] = []
              /\ announced [EvLog MsgRule;
                            EvLog (if aggregate eng p entries
                                   then MsgAllPassed else MsgSomeFailed);
                            EvLog MsgRule] = []).
  { destruct (aggregate eng p entries); split; reflexivity. }
  destruct E as [E1 E2]. rewrite E1, E2. simpl. rewrite !app_nil_r.
  repeat split. apply length_map.
Qed.

Lemma validate_reports_one_outcome_per_assertion_in_order_witness :
  reported (trace (validateElementFromData Demo.healthy Demo.yamlPath Demo.opened))
  = [Matched; ResolutionError; NotVisible; TextMismatch].
Proof.
  exact (proj1 (validate_reports_one_outcome_per_assertion_in_order
                  Demo.healthy Demo.yamlPath (JsString.lit "elements: ...")
                  Demo.opened 3 Demo.fourEntries eq_refl eq_refl eq_refl)).
Defined.

(** C4.  For an assertion whose selector resolves to a visible element,
    the loop reads the element's text content, trims it and compares the
    result with the expected text by exact equality: on equality the one
    verdict line is the success line carrying the trimmed text, otherwise
    the mismatch lines carrying it.  Trimming only removes a run of
    whitespace at the start and at the end; what lies between is kept as
    it is.  So [" Create Your Account "] matches ["Create Your Account"],
    and ["Create  Your Account"] does not. *)
Theorem text_check_is_exact_after_trim_only
    (eng : Engine) (p : Page) (allPassed : bool) (elementName : jsstring)
    (a : ElementData) (element : Locator) (content : option jsstring)
    (s : SessionState) :
  locatorFirst eng p (locator a) = Return element ->
  isVisible eng element = Return true ->
  textContent eng element = Return content ->
  trace (validateElement eng p allPassed (elementName, a) s)
  = [EvLog (MsgValidating (descriptionOf elementName a));
     EvLog (MsgLocator (locator a));
     EvLog (MsgExpected (expected_text a));
     EvLocator p (locator a); EvIsVisible element; EvTextContent element]
    ++ (if JsString.eqb (trimmedText content) (expected_text a)
        then [EvLog (MsgSuccess (trimmedText content))]
        else [EvLog (MsgMismatch (descriptionOf elementName a));
              EvLog (MsgMismatchExpected (expected_text a));
              EvLog (MsgMismatchActual (trimmedText content))])
  /\ (JsString.eqb (trimmedText content) (expected_text a) = true <->
      trimmedText content = expected_text a)
  /\ (forall text, content = Some text ->
      exists l r, text = l ++ trimmedText content ++ r
                  /\ allWhiteSpace l /\ allWhiteSpace r
                  /\ startsOnText (trimmedText content)
                  /\ endsOnText (trimmedText content))
  /\ reported (trace (validateElement Demo.healthy 3 true
                        (Demo.entry "padded" "#padded") Demo.opened))
     = [Matched]
  /\ reported (trace (validateElement Demo.healthy 3 true
                        (Demo.entry "double" "#double") Demo.opened))
     = [TextMismatch]
  /\ JsString.trim (JsString.lit " Create Your Account ")
     = JsString.lit "Create Your Account"
  /\ JsString.trim (JsString.lit "Create  Your Account")
     = JsString.lit "Create  Your Account".
Proof.
  intros Hl Hv Ht. split; [|split; [|split; [|repeat split]]].
  - unfold validateElement. run_method. rewrite Hl. simpl. rewrite Hv. simpl.
    rewrite Ht. simpl. rewrite actualTextOf_trimmedText.
    destruct (JsString.eqb (trimmedText content) (expected_text a)); reflexivity.
  - apply eqb_eq.
  - intros text ->. simpl. apply trim_split.
Qed.

Lemma text_check_is_exact_after_trim_only_witness :
  trace (validateElement Demo.healthy 3 true (Demo.entry "padded" "#padded") Demo.opened)
  = [EvLog (MsgValidating (JsString.lit "padded"));
     EvLog (MsgLocator (JsString.lit "#padded"));
     EvLog (MsgExpected Demo.createAccount);
     EvLocator 3 (JsString.lit "#padded"); EvIsVisible 10; EvTextContent 10;
     EvLog (MsgSuccess Demo.createAccount)].
Proof.
  exact (proj1 (text_check_is_exact_after_trim_only Demo.healthy 3 true
                  (JsString.lit "padded")
                  (mkElementData (JsString.lit "#padded") Demo.createAccount None)
                  10 (Some (JsString.lit " Create Your Account ")) Demo.opened
                  eq_refl eq_refl eq_refl)).
Defined.

(** C5, as stated, fails here.  The session is open and the declaration
    file parses to a document without [elements]: the call does not throw;
    the error is caught inside and the caller receives [false]. *)
Lemma validate_missing_elements_returns_false :
  validateElementFromData Demo.withoutElements Demo.yamlPath Demo.opened
  = (Return false, Demo.opened,
     [EvReadFile Demo.yamlPath; EvYamlLoad (JsString.lit "elements: ...");
      EvLog (MsgErrorValidating MissingElementsKey)])
  /\ ~ (exists e, result (validateElementFromData Demo.withoutElements
                            Demo.yamlPath Demo.opened) = Throw e).
Proof.
  split; [reflexivity|]. intros [e H]. discriminate H.
Qed.

(** C5, amended.  When the parsed declaration lacks the [elements] key,
    the error is thrown before the evaluation loop starts (the run reads
    the file, parses it and stops: nothing is announced, resolved or
    reported), but it is caught inside [validateElementFromData], which
    logs it and returns [false] to the caller. *)
Theorem validate_missing_elements_is_caught_before_the_loop
    (eng : Engine) (yamlFilePath fileContent : jsstring) (s : SessionState)
    (p : Page) :
  page s = Some p ->
  readFileSync eng yamlFilePath = Return fileContent ->
  yamlLoad eng fileContent = Return YNoElements ->
  validateElementFromData eng yamlFilePath s
  = (Return false, s,
     [EvReadFile yamlFilePath; EvYamlLoad fileContent;
      EvLog (MsgErrorValidating MissingElementsKey)])
  /\ resolved (trace (validateElementFromData eng yamlFilePath s)) = []
  /\ announced (trace (validateElementFromData eng yamlFilePath s)) = []
  /\ reported (trace (validateElementFromData eng yamlFilePath s)) = [].
Proof.
  intros Hp Hr Hy.
  rewrite (validateElementFromData_no_elements eng yamlFilePath fileContent s p
             YNoElements Hp Hr Hy); [|discriminate].
  repeat split.
Qed.

Lemma validate_missing_elements_is_caught_before_the_loop_witness :
  result (validateElementFromData Demo.withoutElements Demo.yamlPath Demo.opened)
  = Return false.
Proof.
  exact (f_equal (fun r => result r)
           (proj1 (validate_missing_elements_is_caught_before_the_loop
                     Demo.withoutElements Demo.yamlPath
                     (JsString.lit "elements: ...") Demo.opened 3
                     eq_refl eq_refl eq_refl))).
Defined.

(** [validateElementFromData] never assigns a field. *)
Lemma validateElementFromData_keeps_fields
    (eng : Engine) (yamlFilePath : jsstring) (s : SessionState) :
  final (validateElementFromData eng yamlFilePath s) = s
  /\ (page s = None ->
      result (validateElementFromData eng yamlFilePath s) = Throw PageNotInitialized).
Proof.
  destruct (page s) as [p|] eqn:Hp.
  - split; [|discriminate].
    apply (validateElementFromData_verdict eng yamlFilePath s p Hp).
  - rewrite (validateElementFromData_no_page eng yamlFilePath s Hp).
    split; reflexivity.
Qed.

(** C10.  [validateElementFromData] throws exactly when the page field is
    null, and then it throws the page-not-initialized error.  With a page
    it always returns a boolean, the verdict of the file: [false] when the
    file cannot be read, when it does not parse, when the document is
    empty or has no [elements], and otherwise the aggregate of the
    assertions (so [false] as soon as one assertion fails in any way).
    The fields are never changed. *)
Theorem validate_throws_iff_page_is_null
    (eng : Engine) (yamlFilePath : jsstring) (s : SessionState) :
  ((exists e, result (validateElementFromData eng yamlFilePath s) = Throw e)
   <-> page s = None)
  /\ (page s = None ->
      result (validateElementFromData eng yamlFilePath s) = Throw PageNotInitialized)
  /\ (forall p, page s = Some p ->
      result (validateElementFromData eng yamlFilePath s)
        = Return (verdict eng p yamlFilePath))
  /\ final (validateElementFromData eng yamlFilePath s) = s.
Proof.
  destruct (page s) as [p|] eqn:Hp.
  - destruct (validateElementFromData_verdict eng yamlFilePath s p Hp) as [R F].
    split; [|split; [|split]].
    + split; [|discriminate]. intros [e H]. rewrite R in H. discriminate H.
    + discriminate.
    + intros q Hq. injection Hq as <-. exact R.
    + exact F.
  - rewrite (validateElementFromData_no_page eng yamlFilePath s Hp).
    split; [|split; [|split]].
    + split; [reflexivity|]. intros _. exists PageNotInitialized. reflexivity.
    + reflexivity.
    + discriminate.
    + reflexivity.
Qed.

(* ===================================================================== *)
(** ** The fields between operations *)
(* ===================================================================== *)

(** Whatever sequence of [openUrl], [validateElementFromData] and
    [teardown] calls a manager has gone through, and whatever the world
    answered, its fields are strictly nested. *)
Lemma reachable_nested (toLowerCase : jsstring -> jsstring) (eng : Engine)
    (s : SessionState) :
  Reachable toLowerCase eng s -> nested s.
Proof.
  induction 1 as [|s url browserType _ IH|s yamlFilePath _ IH|s _ IH].
  - split; intros H; exfalso; apply H; reflexivity.
  - apply openUrl_nested. exact IH.
  - destruct (validateElementFromData_keeps_fields eng yamlFilePath s) as [-> _].
    exact IH.
  - apply teardown_nested. exact IH.
Qed.

(** After a [teardown] in which no release step throws, from fields a
    manager can have, all three fields are null. *)
Lemma reachable_teardown_allNull (toLowerCase : jsstring -> jsstring)
    (eng : Engine) (s : SessionState) :
  Reachable toLowerCase eng s ->
  releasesSucceed eng s ->
  allNull (final (teardown eng s)).
Proof.
  intros _ H. apply (teardown_releases_all eng s H).
Qed.

(* ===================================================================== *)
(** ** More about [teardown] *)
(* ===================================================================== *)

Ltac teardown_cases eng :=
  repeat match goal with
         | |- context [closePage eng ?x] =>
             destruct (closePage eng x) as [[]|?] eqn:?; simpl
         | |- context [closeContext eng ?x] =>
             destruct (closeContext eng x) as [[]|?] eqn:?; simpl
         | |- context [closeBrowser eng ?x] =>
             destruct (closeBrowser eng x) as [[]|?] eqn:?; simpl
         end.

(** X1.  [teardown] never throws, and its last console line tells how it
    went: the line "Browser closed successfully." is written exactly when
    all three fields are null afterwards; otherwise a teardown error line
    is written. *)
Theorem teardown_reports_success_iff_fields_null
    (eng : Engine) (s : SessionState) :
  result (teardown eng s) = Return tt
  /\ (In (EvLog MsgBrowserClosed) (trace (teardown eng s))
      <-> allNull (final (teardown eng s)))
  /\ (allNull (final (teardown eng s))
      \/ exists e, In (EvLog (MsgTeardownError e)) (trace (teardown eng s))).
Proof.
  unfold allNull.
  destruct s as [[b|] [c|] [p|]]; unfold teardown; run_method;
    teardown_cases eng;
    (split; [reflexivity | split]).
  all: try (split;
            [ intros H;
              first [ solve [repeat split]
                    | solve [exfalso; simpl in H;
                             repeat (destruct H as [H|H]; [discriminate H|]);
                             exact H] ]
            | intros (H1 & H2 & H3);
              first [ discriminate H1 | discriminate H2 | discriminate H3
                    | solve [simpl; auto 10] ] ]).
  all: first [ solve [left; repeat split]
             | solve [right; eexists; simpl; eauto 10] ].
Qed.

(** X2.  [teardown] calls close on what the session holds, in the order
    page, context, browser, up to and including the first call that
    throws, and on nothing after it; afterwards exactly the resources
    whose close succeeded have been nulled: the fields still hold the one
    whose close threw and every one after it. *)
Theorem teardown_attempts_prefix_and_keeps_suffix
    (eng : Engine) (s : SessionState) :
  closeCalls (trace (teardown eng s))
  = firstn (S (leadingSuccesses eng (heldCloses s))) (heldCloses s)
  /\ heldCloses (final (teardown eng s))
     = skipn (leadingSuccesses eng (heldCloses s)) (heldCloses s).
Proof.
  destruct s as [[b|] [c|] [p|]];
    unfold teardown, heldCloses; run_method;
    teardown_cases eng; split; reflexivity.
Qed.

(** X3.  On a session that holds nothing, [teardown] calls nothing: it
    writes its success line and leaves the fields as they are. *)
Theorem teardown_on_closed_session_is_noop (eng : Engine) (s : SessionState) :
  allNull s ->
  teardown eng s = (Return tt, s, [EvLog MsgBrowserClosed]).
Proof.
  intros (Hp & Hc & Hb). destruct s as [b c p]. simpl in *. subst.
  reflexivity.
Qed.

Lemma teardown_on_closed_session_is_noop_witness :
  teardown Demo.pageCloseThrows initial = (Return tt, initial, [EvLog MsgBrowserClosed]).
Proof.
  apply (teardown_on_closed_session_is_noop Demo.pageCloseThrows initial).
  repeat split.
Defined.

(** X4.  [teardown] is idempotent when its release steps succeed: a second
    call right after the first makes no close call at all and changes
    nothing. *)
Theorem teardown_twice_releases_once (eng : Engine) (s : SessionState) :
  releasesSucceed eng s ->
  releases (trace (teardown eng s)) = held s
  /\ teardown eng (final (teardown eng s))
     = (Return tt, final (teardown eng s), [EvLog MsgBrowserClosed]).
Proof.
  intros H. destruct (teardown_releases_all eng s H) as (Hn & Hr & _).
  split; [exact Hr|].
  destruct (final (teardown eng s)) as [b c p].
  destruct Hn as (Hp & Hc & Hb). simpl in *. subst. reflexivity.
Qed.

Lemma teardown_twice_releases_once_witness :
  releases (trace (teardown Demo.healthy Demo.opened)) = [RPage; RContext; RBrowser]
  /\ teardown Demo.healthy (final (teardown Demo.healthy Demo.opened))
     = (Return tt, initial, [EvLog MsgBrowserClosed]).
Proof.
  apply (teardown_twice_releases_once Demo.healthy Demo.opened).
  repeat split.
Defined.

(* ===================================================================== *)
(** ** More about [openUrl] *)
(* ===================================================================== *)

(** The three ways a call of [openUrl] can go. *)
Lemma openUrl_trichotomy (toLowerCase : jsstring -> jsstring) (eng : Engine)
    (url browserType : jsstring) (s : SessionState) :
  browserKindOf toLowerCase browserType = None
  \/ (exists kind e partial pre,
        browserKindOf toLowerCase browserType = Some kind
        /\ OpenFailure eng kind url s e partial pre)
  \/ (exists kind b c p,
        browserKindOf toLowerCase browserType = Some kind
        /\ OpenSucceeds eng kind url b c p).
Proof.
  destruct (browserKindOf toLowerCase browserType) as [kind|]; [right | left; reflexivity].
  destruct (launch eng kind) as [b|e] eqn:E1.
  2:{ left. exists kind, e, s. eexists. split; [reflexivity|].
      apply FailLaunch. exact E1. }
  destruct (newContext eng b) as [c|e] eqn:E2.
  2:{ left. exists kind, e. do 2 eexists. split; [reflexivity|].
      eapply FailNewContext; eassumption. }
  destruct (newPage eng c) as [p|e] eqn:E3.
  2:{ left. exists kind, e. do 2 eexists. split; [reflexivity|].
      eapply FailNewPage; eassumption. }
  destruct (goto eng p url) as [[]|e] eqn:E4.
  2:{ left. exists kind, e. do 2 eexists. split; [reflexivity|].
      eapply FailGoto; eassumption. }
  destruct (waitForLoadState eng p) as [[]|e] eqn:E5.
  2:{ left. exists kind, e. do 2 eexists. split; [reflexivity|].
      eapply FailWaitForLoadState; eassumption. }
  destruct (waitForTimeout eng p) as [[]|e] eqn:E6.
  2:{ left. exists kind, e. do 2 eexists. split; [reflexivity|].
      eapply FailWaitForTimeout; eassumption. }
  right. exists kind, b, c, p. split; [reflexivity|]. repeat split; assumption.
Qed.

(** A returned page is the page field, and every step succeeded. *)
Lemma openUrl_return_inv (toLowerCase : jsstring -> jsstring) (eng : Engine)
    (url browserType : jsstring) (s : SessionState) (p : Page) :
  result (openUrl toLowerCase eng url browserType s) = Return p ->
  exists kind b c,
    browserKindOf toLowerCase browserType = Some kind
    /\ OpenSucceeds eng kind url b c p
    /\ final (openUrl toLowerCase eng url browserType s)
       = mkSession (Some b) (Some c) (Some p).
Proof.
  intros H.
  destruct (openUrl_trichotomy toLowerCase eng url browserType s)
    as [Hk | [(kind & e & partial & pre & Hk & HF) | (kind & b & c & q & Hk & Hs)]].
  - rewrite (openUrl_unsupported toLowerCase eng url browserType s Hk) in H.
    discriminate H.
  - rewrite (openUrl_failure toLowerCase eng url browserType kind s partial e pre Hk HF) in H.
    discriminate H.
  - rewrite (openUrl_success toLowerCase eng url browserType kind s b c q Hk Hs) in H |- *.
    injection H as ->. exists kind, b, c. repeat split; solve [assumption | apply Hs].
Qed.

Lemma startsWith_iff (s prefix : jsstring) :
  JsString.startsWith s prefix = true <-> exists r, s = prefix ++ r.
Proof.
  split.
  - revert s. induction prefix as [|x prefix IH]; intros s H.
    + exists s. reflexivity.
    + destruct s as [|y s]; simpl in H; [discriminate|].
      apply andb_true_iff in H. destruct H as [Hxy H].
      apply N.eqb_eq in Hxy. subst y.
      destruct (IH s H) as [r ->]. exists r. reflexivity.
  - intros [r ->]. apply startsWith_app.
Qed.

Lemma dropFinalSlash_cases (s : jsstring) :
  JsString.dropFinalSlash s = s
  \/ s = JsString.dropFinalSlash s ++ [JsString.slash].
Proof.
  induction s as [|c s IH]; [left; reflexivity|].
  destruct s as [|d s].
  - simpl. destruct (N.eqb c JsString.slash) eqn:E.
    + right. apply N.eqb_eq in E. subst c. reflexivity.
    + left. reflexivity.
  - change (JsString.dropFinalSlash (c :: d :: s))
      with (c :: JsString.dropFinalSlash (d :: s)).
    destruct IH as [IH|IH].
    + left. rewrite IH. reflexivity.
    + right. simpl. f_equal. exact IH.
Qed.

(** X5.  [openUrl] returns a page exactly when the browser type is
    supported and launch, context creation, page creation, navigation and
    both waits all succeed; the page returned is then the one stored in the
    [page] field, with its context and browser stored beside it. *)
Theorem openUrl_returns_iff_every_step_succeeds
    (toLowerCase : jsstring -> jsstring) (eng : Engine)
    (url browserType : jsstring) (s : SessionState) (p : Page) :
  result (openUrl toLowerCase eng url browserType s) = Return p
  <-> exists kind b c,
        browserKindOf toLowerCase browserType = Some kind
        /\ OpenSucceeds eng kind url b c p
        /\ final (openUrl toLowerCase eng url browserType s)
           = mkSession (Some b) (Some c) (Some p).
Proof.
  split.
  - apply openUrl_return_inv.
  - intros (kind & b & c & Hk & Hs & _).
    rewrite (openUrl_success toLowerCase eng url browserType kind s b c p Hk Hs).
    reflexivity.
Qed.

(** X6.  The browser type is matched on its lower-casing only: two
    spellings with the same supported lower-casing make [openUrl] behave
    identically. *)
Theorem openUrl_ignores_case_of_browser_type
    (toLowerCase : jsstring -> jsstring) (eng : Engine)
    (url type1 type2 : jsstring) (s : SessionState) :
  toLowerCase type1 = toLowerCase type2 ->
  In (toLowerCase type1) supportedBrowserTypes ->
  openUrl toLowerCase eng url type1 s = openUrl toLowerCase eng url type2 s.
Proof.
  intros He Hin.
  assert (Hk : browserKindOf toLowerCase type1 = browserKindOf toLowerCase type2).
  { unfold browserKindOf. rewrite He. reflexivity. }
  destruct (browserKindOf toLowerCase type1) as [kind|] eqn:H1.
  - unfold openUrl. rewrite H1, <- Hk. reflexivity.
  - exfalso. apply (proj2 (browserKindOf_None toLowerCase type1) H1). exact Hin.
Qed.

Lemma openUrl_ignores_case_of_browser_type_witness :
  openUrl Demo.asciiLower Demo.healthy Demo.requested (JsString.lit "FireFox") initial
  = openUrl Demo.asciiLower Demo.healthy Demo.requested (JsString.lit "firefox") initial.
Proof.
  apply (openUrl_ignores_case_of_browser_type Demo.asciiLower Demo.healthy
           Demo.requested (JsString.lit "FireFox") (JsString.lit "firefox") initial).
  - reflexivity.
  - right. left. reflexivity.
Defined.

(** X7.  [openUrl] closes nothing when it succeeds: whatever the fields
    held before is overwritten without a close call, so a browser opened
    by an earlier [openUrl] is closed neither by this call nor by the
    [teardown] that follows. *)
Theorem openUrl_reopen_never_closes_previous_browser
    (toLowerCase : jsstring -> jsstring) (eng : Engine)
    (url browserType : jsstring) (kind : BrowserKind) (s : SessionState)
    (b : Browser) (c : BrowserContext) (p : Page) (old : Browser) :
  browserKindOf toLowerCase browserType = Some kind ->
  OpenSucceeds eng kind url b c p ->
  browser s = Some old ->
  old <> b ->
  releases (trace (openUrl toLowerCase eng url browserType s)) = []
  /\ ~ In (EvCloseBrowser old)
          (trace (openUrl toLowerCase eng url browserType s)
           ++ trace (teardown eng (final (openUrl toLowerCase eng url browserType s)))).
Proof.
  intros Hk Hs Hold Hne.
  rewrite (openUrl_success toLowerCase eng url browserType kind s b c p Hk Hs).
  unfold final, trace at 1 2. simpl fst. simpl snd. split; [reflexivity|].
  intros H. apply in_app_or in H. destruct H as [H|H].
  - simpl in H. repeat (destruct H as [H|H]; [discriminate H|]). exact H.
  - revert H. unfold teardown. run_method. teardown_cases eng; intros H;
      repeat (destruct H as [H|H];
              [first [discriminate H | injection H as H; congruence]|]);
      exact H.
Qed.

Lemma openUrl_reopen_never_closes_previous_browser_witness :
  ~ In (EvCloseBrowser 7)
       (trace (openUrl Demo.asciiLower Demo.healthy Demo.requested
                 (JsString.lit "chromium") (mkSession (Some 7) (Some 8) (Some 9)))
        ++ trace (teardown Demo.healthy
                    (final (openUrl Demo.asciiLower Demo.healthy Demo.requested
                              (JsString.lit "chromium")
                              (mkSession (Some 7) (Some 8) (Some 9)))))).
Proof.
  apply (openUrl_reopen_never_closes_previous_browser Demo.asciiLower Demo.healthy
           Demo.requested (JsString.lit "chromium") Chromium
           (mkSession (Some 7) (Some 8) (Some 9)) 1 2 3 7).
  - reflexivity.
  - repeat split.
  - reflexivity.
  - discriminate.
Defined.

(** X8.  After a successful navigation the warning line is written exactly
    when the resolved URL is not the requested URL, less one final slash if
    it has one, followed by anything; at most that one slash is dropped
    from the requested URL. *)
Theorem openUrl_warns_iff_resolved_url_does_not_extend_requested
    (toLowerCase : jsstring -> jsstring) (eng : Engine)
    (url browserType : jsstring) (kind : BrowserKind) (s : SessionState)
    (b : Browser) (c : BrowserContext) (p : Page) :
  browserKindOf toLowerCase browserType = Some kind ->
  OpenSucceeds eng kind url b c p ->
  (In (EvLog (MsgUrlWarning (pageUrl eng p) url))
      (trace (openUrl toLowerCase eng url browserType s))
   <-> ~ exists rest, pageUrl eng p = JsString.dropFinalSlash url ++ rest)
  /\ (JsString.dropFinalSlash url = url
      \/ url = JsString.dropFinalSlash url ++ [JsString.slash]).
Proof.
  intros Hk Hs. split; [|apply dropFinalSlash_cases].
  rewrite (openUrl_success toLowerCase eng url browserType kind s b c p Hk Hs).
  unfold trace. simpl snd. rewrite <- startsWith_iff.
  destruct (JsString.startsWith (pageUrl eng p) (JsString.dropFinalSlash url)).
  - split.
    + intros H. simpl in H.
      repeat (destruct H as [H|H]; [discriminate H|]). contradiction.
    + intros H. exfalso. apply H. reflexivity.
  - split.
    + intros _. discriminate.
    + intros _. simpl. do 7 right. left. reflexivity.
Qed.

Lemma openUrl_warns_iff_resolved_url_does_not_extend_requested_witness :
  In (EvLog (MsgUrlWarning Demo.redirected Demo.requested))
     (trace (openUrl Demo.asciiLower Demo.healthy Demo.requested
               (JsString.lit "chromium") initial))
  <-> ~ exists rest, Demo.redirected = JsString.dropFinalSlash Demo.requested ++ rest.
Proof.
  apply (openUrl_warns_iff_resolved_url_does_not_extend_requested Demo.asciiLower
           Demo.healthy Demo.requested (JsString.lit "chromium") Chromium
           initial 1 2 3).
  - reflexivity.
  - repeat split.
Defined.

(* ===================================================================== *)
(** ** More about [validateElementFromData] *)
(* ===================================================================== *)

Lemma trimStart_allWhiteSpace (t : jsstring) :
  allWhiteSpace t -> JsString.trimStart t = [].
Proof.
  induction 1 as [|c t Hc _ IH]; simpl; [reflexivity|].
  rewrite Hc. exact IH.
Qed.

Lemma trim_allWhiteSpace (t : jsstring) :
  allWhiteSpace t -> JsString.trim t = [].
Proof.
  intros H. unfold JsString.trim, JsString.trimEnd.
  rewrite (trimStart_allWhiteSpace t H). reflexivity.
Qed.

Lemma trimmedText_clean (content : option jsstring) :
  startsOnText (trimmedText content) /\ endsOnText (trimmedText content).
Proof.
  destruct content as [text|]; simpl.
  - destruct (trim_split text) as (l & r & _ & _ & _ & Hs & He). split; assumption.
  - split; exact I.
Qed.

Lemma validateElement_quiet (eng : Engine) (p : Page) (allPassed : bool)
    (entry : jsstring * ElementData) (s : SessionState) :
  Forall (fun ev => isSessionStep ev = false)
    (trace (validateElement eng p allPassed entry s)).
Proof.
  destruct entry as [elementName a]. unfold validateElement. run_method.
  destruct (locatorFirst eng p (locator a)) as [element|e]; simpl;
    [|repeat constructor].
  destruct (isVisible eng element) as [[|]|e]; simpl; [|repeat constructor..].
  destruct (textContent eng element) as [content|e]; simpl; [|repeat constructor].
  destruct (JsString.eqb (actualTextOf content) (expected_text a));
    repeat constructor.
Qed.

Lemma validateLoop_quiet (eng : Engine) (p : Page)
    (entries : list (jsstring * ElementData)) (allPassed : bool) (s : SessionState) :
  Forall (fun ev => isSessionStep ev = false)
    (trace (validateLoop eng p allPassed entries s)).
Proof.
  revert allPassed. induction entries as [|entry rest IH]; intros allPassed.
  - constructor.
  - simpl validateLoop. unfold bind.
    pose proof (validateElement_quiet eng p allPassed entry s) as Q1.
    destruct (validateElement_run eng p allPassed entry s) as (R1 & F1 & _).
    destruct (validateElement eng p allPassed entry s) as [[r1 s1] t1].
    unfold result, final, trace in *. simpl in *. subst r1 s1.
    specialize (IH (allPassed && isMatched (classify eng p (snd entry)))).
    destruct (validateLoop eng p _ rest s) as [[r2 s2] t2]. simpl in *.
    apply Forall_app. split; assumption.
Qed.

(** X9.  A declaration whose [elements] mapping is empty passes: nothing
    is evaluated and the result is [true]. *)
Theorem validate_empty_declaration_passes
    (eng : Engine) (yamlFilePath fileContent : jsstring) (s : SessionState)
    (p : Page) :
  page s = Some p ->
  readFileSync eng yamlFilePath = Return fileContent ->
  yamlLoad eng fileContent = Return (YElements []) ->
  validateElementFromData eng yamlFilePath s
  = (Return true, s,
     [EvReadFile yamlFilePath; EvYamlLoad fileContent;
      EvLog (MsgValidatingCount 0);
      EvLog MsgRule; EvLog MsgAllPassed; EvLog MsgRule]).
Proof.
  intros Hp Hr Hy.
  rewrite (validateElementFromData_entries eng yamlFilePath fileContent s p [] Hp Hr Hy).
  reflexivity.
Qed.

Lemma validate_empty_declaration_passes_witness :
  result (validateElementFromData
            (Demo.world (Return tt) Demo.redirected (Return 3) (Return (YElements [])))
            Demo.yamlPath Demo.opened)
  = Return true.
Proof.
  exact (f_equal (fun r => result r)
           (validate_empty_declaration_passes
              (Demo.world (Return tt) Demo.redirected (Return 3) (Return (YElements [])))
              Demo.yamlPath (JsString.lit "elements: ...") Demo.opened 3
              eq_refl eq_refl eq_refl)).
Defined.

(** X10.  When the declaration file gives no assertions (it cannot be
    read, does not parse, is an empty document or has no [elements]), the
    page is never queried: the run ends on one error line, reports no
    verdict and returns [false]. *)
Theorem validate_without_declaration_never_queries_page
    (eng : Engine) (yamlFilePath : jsstring) (s : SessionState) (p : Page) :
  page s = Some p ->
  declaredEntries eng yamlFilePath = None ->
  result (validateElementFromData eng yamlFilePath s) = Return false
  /\ Forall (fun ev => isPageQuery ev = false)
       (trace (validateElementFromData eng yamlFilePath s))
  /\ reported (trace (validateElementFromData eng yamlFilePath s)) = []
  /\ exists e before,
       trace (validateElementFromData eng yamlFilePath s)
       = before ++ [EvLog (MsgErrorValidating e)].
Proof.
  intros Hp Hd. unfold declaredEntries in Hd.
  destruct (readFileSync eng yamlFilePath) as [fileContent|e] eqn:Hr.
  2:{ rewrite (validateElementFromData_unreadable eng yamlFilePath s p e Hp Hr).
      repeat split; [repeat constructor|].
      exists e, [EvReadFile yamlFilePath]. reflexivity. }
  destruct (yamlLoad eng fileContent) as [data|e] eqn:Hy.
  2:{ rewrite (validateElementFromData_unparsed eng yamlFilePath fileContent s p e Hp Hr Hy).
      repeat split; [repeat constructor|].
      exists e, [EvReadFile yamlFilePath; EvYamlLoad fileContent]. reflexivity. }
  destruct data as [| |entries]; [| |discriminate Hd].
  - rewrite (validateElementFromData_no_elements eng yamlFilePath fileContent s p
               YNullish Hp Hr Hy); [|discriminate].
    repeat split; [repeat constructor|].
    exists TypeError, [EvReadFile yamlFilePath; EvYamlLoad fileContent]. reflexivity.
  - rewrite (validateElementFromData_no_elements eng yamlFilePath fileContent s p
               YNoElements Hp Hr Hy); [|discriminate].
    repeat split; [repeat constructor|].
    exists MissingElementsKey, [EvReadFile yamlFilePath; EvYamlLoad fileContent].
    reflexivity.
Qed.

Lemma validate_without_declaration_never_queries_page_witness :
  result (validateElementFromData Worlds.blankPage Demo.yamlPath Demo.opened)
  = Return false.
Proof.
  apply (validate_without_declaration_never_queries_page Worlds.blankPage
           Demo.yamlPath Demo.opened 3); reflexivity.
Defined.

(** X11.  [validateElementFromData] only reads: whatever the file and the
    page are, it makes no launch, context, page, navigation, wait or close
    call, and it leaves the fields as they were. *)
Theorem validate_only_reads
    (eng : Engine) (yamlFilePath : jsstring) (s : SessionState) :
  Forall (fun ev => isSessionStep ev = false)
    (trace (validateElementFromData eng yamlFilePath s))
  /\ final (validateElementFromData eng yamlFilePath s) = s.
Proof.
  split; [|apply validateElementFromData_keeps_fields].
  destruct (page s) as [p|] eqn:Hp.
  2:{ rewrite (validateElementFromData_no_page eng yamlFilePath s Hp). constructor. }
  destruct (readFileSync eng yamlFilePath) as [fileContent|e] eqn:Hr.
  2:{ rewrite (validateElementFromData_unreadable eng yamlFilePath s p e Hp Hr).
      repeat constructor. }
  destruct (yamlLoad eng fileContent) as [data|e] eqn:Hy.
  2:{ rewrite (validateElementFromData_unparsed eng yamlFilePath fileContent s p e Hp Hr Hy).
      repeat constructor. }
  destruct data as [| |entries].
  - rewrite (validateElementFromData_no_elements eng yamlFilePath fileContent s p
               YNullish Hp Hr Hy); [|discriminate]. repeat constructor.
  - rewrite (validateElementFromData_no_elements eng yamlFilePath fileContent s p
               YNoElements Hp Hr Hy); [|discriminate]. repeat constructor.
  - rewrite (validateElementFromData_entries eng yamlFilePath fileContent s p
               entries Hp Hr Hy).
    unfold trace at 1. simpl snd.
    repeat (apply Forall_cons; [reflexivity|]).
    apply Forall_app. split; [apply validateLoop_quiet|].
    repeat constructor.
Qed.

(** X12.  When resolving an assertion fails, the failure line names the
    assertion by its description, or by its key when the description is
    absent or empty; the announcement before it shows the description as
    written.  The two differ exactly for an empty description. *)
Theorem failure_label_falls_back_to_name_on_empty_description
    (eng : Engine) (p : Page) (allPassed : bool) (elementName : jsstring)
    (a : ElementData) (e : Error) (s : SessionState) :
  locatorFirst eng p (locator a) = Throw e ->
  validateElement eng p allPassed (elementName, a) s
  = (Return false, s,
     [EvLog (MsgValidating (descriptionOf elementName a));
      EvLog (MsgLocator (locator a));
      EvLog (MsgExpected (expected_text a));
      EvLocator p (locator a);
      EvLog (MsgFailed (labelOf elementName a) e)])
  /\ (description a = Some [] ->
      descriptionOf elementName a = [] /\ labelOf elementName a = elementName)
  /\ (description a <> Some [] ->
      labelOf elementName a = descriptionOf elementName a).
Proof.
  intros Hl. split; [|split].
  - unfold validateElement. run_method. rewrite Hl. reflexivity.
  - unfold descriptionOf, labelOf. intros ->. split; reflexivity.
  - unfold descriptionOf, labelOf. intros Hd.
    destruct (description a) as [[|c d]|]; try reflexivity.
    exfalso. apply Hd. reflexivity.
Qed.

Lemma failure_label_falls_back_to_name_on_empty_description_witness :
  validateElement Demo.healthy 3 true
    (JsString.lit "key", mkElementData (JsString.lit "#missing") [] (Some [])) Demo.opened
  = (Return false, Demo.opened,
     [EvLog (MsgValidating []);
      EvLog (MsgLocator (JsString.lit "#missing"));
      EvLog (MsgExpected []);
      EvLocator 3 (JsString.lit "#missing");
      EvLog (MsgFailed (JsString.lit "key") (External 404))]).
Proof.
  exact (proj1 (failure_label_falls_back_to_name_on_empty_description
                  Demo.healthy 3 true (JsString.lit "key")
                  (mkElementData (JsString.lit "#missing") [] (Some []))
                  (External 404) Demo.opened eq_refl)).
Defined.

(** X13.  The expected text is compared as written, the element's text
    after trimming: an expected text that starts or ends with whitespace
    can match no element, so its assertion fails on every page. *)
Theorem padded_expected_text_never_matches
    (eng : Engine) (p : Page) (allPassed : bool) (elementName : jsstring)
    (a : ElementData) (s : SessionState) :
  ~ (startsOnText (expected_text a) /\ endsOnText (expected_text a)) ->
  result (validateElement eng p allPassed (elementName, a) s) = Return false
  /\ ~ In Matched (reported (trace (validateElement eng p allPassed (elementName, a) s))).
Proof.
  intros Hpad.
  assert (Hc : classify eng p a <> Matched).
  { intros H. apply classify_Matched in H.
    destruct H as (element & content & _ & _ & _ & Heq).
    apply Hpad. rewrite <- Heq. apply trimmedText_clean. }
  destruct (validateElement_run eng p allPassed (elementName, a) s)
    as (R & _ & P & _).
  simpl snd in R, P. rewrite R, P. split.
  - destruct (classify eng p a); try (rewrite andb_false_r; reflexivity).
    contradiction.
  - intros [H|[]]. contradiction.
Qed.

Lemma padded_expected_text_never_matches_witness :
  result (validateElement Demo.healthy 3 true
            (JsString.lit "padded", Worlds.expectsPadded) Demo.opened)
  = Return false.
Proof.
  apply (padded_expected_text_never_matches Demo.healthy 3 true
           (JsString.lit "padded") Worlds.expectsPadded Demo.opened).
  intros [H _]. discriminate H.
Defined.

(** X14.  A visible element without text content, or whose text is only
    whitespace, has the empty text: it matches an assertion exactly when
    the expected text is the empty string. *)
Theorem blank_element_matches_only_empty_expected_text
    (eng : Engine) (p : Page) (allPassed : bool) (elementName : jsstring)
    (a : ElementData) (element : Locator) (content : option jsstring)
    (s : SessionState) :
  locatorFirst eng p (locator a) = Return element ->
  isVisible eng element = Return true ->
  textContent eng element = Return content ->
  (content = None \/ exists text, content = Some text /\ allWhiteSpace text) ->
  reported (trace (validateElement eng p allPassed (elementName, a) s))
  = [if JsString.truthy (expected_text a) then TextMismatch else Matched]
  /\ result (validateElement eng p allPassed (elementName, a) s)
     = Return (allPassed && negb (JsString.truthy (expected_text a))).
Proof.
  intros Hl Hv Ht Hblank.
  assert (Hempty : trimmedText content = []).
  { destruct Hblank as [->|(text & -> & Hw)]; [reflexivity|].
    simpl. apply trim_allWhiteSpace. exact Hw. }
  destruct (validateElement_run eng p allPassed (elementName, a) s)
    as (R & _ & P & _).
  simpl snd in R, P. rewrite R, P. unfold classify.
  rewrite Hl, Hv, Ht, Hempty.
  destruct (expected_text a); split; reflexivity.
Qed.

Lemma blank_element_matches_only_empty_expected_text_witness :
  reported (trace (validateElement Worlds.blankPage 3 true
                     (JsString.lit "spacer", Worlds.expectsNothing) Demo.opened))
  = [Matched].
Proof.
  apply (blank_element_matches_only_empty_expected_text Worlds.blankPage 3 true
           (JsString.lit "spacer") Worlds.expectsNothing 20 None Demo.opened
           eq_refl eq_refl eq_refl).
  left. reflexivity.
Defined.

(** X15.  Right after an [openUrl] that returned a page,
    [validateElementFromData] does not throw: it returns the verdict of
    the file on that page. *)
Theorem validate_after_successful_open_returns_verdict
    (toLowerCase : jsstring -> jsstring) (eng : Engine)
    (url browserType yamlFilePath : jsstring) (s : SessionState) (p : Page) :
  result (openUrl toLowerCase eng url browserType s) = Return p ->
  result (validateElementFromData eng yamlFilePath
            (final (openUrl toLowerCase eng url browserType s)))
  = Return (verdict eng p yamlFilePath).
Proof.
  intros H.
  destruct (openUrl_return_inv toLowerCase eng url browserType s p H)
    as (kind & b & c & _ & _ & Hf).
  rewrite Hf.
  apply (validateElementFromData_verdict eng yamlFilePath
           (mkSession (Some b) (Some c) (Some p)) p eq_refl).
Qed.

Lemma validate_after_successful_open_returns_verdict_witness :
  result (validateElementFromData Demo.allMatching Demo.yamlPath
            (final (openUrl Demo.asciiLower Demo.allMatching Demo.requested
                      (JsString.lit "webkit") initial)))
  = Return true.
Proof.
  apply (validate_after_successful_open_returns_verdict Demo.asciiLower
           Demo.allMatching Demo.requested (JsString.lit "webkit") Demo.yamlPath
           initial 3).
  reflexivity.
Defined.

(** X16.  After [teardown], [validateElementFromData] throws the
    page-not-initialized error exactly when the page, if there was one,
    closed without throwing; after a throwing page close the manager still
    presents its old page to the next validation. *)
Theorem validate_after_teardown_throws_iff_page_closed
    (eng : Engine) (yamlFilePath : jsstring) (s : SessionState) :
  result (validateElementFromData eng yamlFilePath (final (teardown eng s)))
    = Throw PageNotInitialized
  <-> (forall p, page s = Some p -> closePage eng p = Return tt).
Proof.
  assert (Hpage : page (final (teardown eng s)) = None
                  <-> (forall p, page s = Some p -> closePage eng p = Return tt)).
  { destruct s as [b c [p|]]; simpl.
    - destruct (closePage eng p) as [[]|e] eqn:Hc.
      + split.
        * intros _ q Hq. injection Hq as <-. exact Hc.
        * intros _. destruct b, c; unfold teardown; run_method; rewrite Hc; simpl;
            teardown_cases eng; reflexivity.
      + rewrite (teardown_page_failure eng (mkSession b c (Some p)) p e eq_refl Hc).
        simpl. split; [discriminate|].
        intros H. specialize (H p eq_refl). rewrite Hc in H. discriminate H.
    - split; [intros _ q Hq; discriminate Hq|].
      intros _. destruct b, c; unfold teardown; run_method;
        teardown_cases eng; reflexivity. }
  rewrite <- Hpage.
  destruct (page (final (teardown eng s))) as [q|] eqn:Hq.
  - destruct (validateElementFromData_verdict eng yamlFilePath _ q Hq) as [R _].
    rewrite R. split; discriminate.
  - rewrite (validateElementFromData_no_page eng yamlFilePath _ Hq).
    split; reflexivity.
Qed.

(* ===================================================================== *)
(** ** [loadLocatorData] *)
(* ===================================================================== *)

Ltac run_script :=
  unfold stryCatchFinally, stryCatch, sbind, say, external, method,
    processExit, sret, sthrow; simpl.

(** X17.  [loadLocatorData] throws exactly when reading or parsing the
    file throws, and it throws that same error, after one console line
    naming the file; when it returns, it has written nothing. *)
Theorem loadLocatorData_logs_and_rethrows
    (eng : Engine) (yamlFilePath : jsstring) (e : Error) :
  (outcome (loadLocatorData eng yamlFilePath tt) = Throw e
   <-> (readFileSync eng yamlFilePath = Throw e
        \/ exists fileContent,
             readFileSync eng yamlFilePath = Return fileContent
             /\ yamlLoad eng fileContent = Throw e))
  /\ (outcome (loadLocatorData eng yamlFilePath tt) = Throw e ->
      exists before,
        events (loadLocatorData eng yamlFilePath tt)
        = before ++ [Say (MsgErrorLoading yamlFilePath e)])
  /\ (forall data, outcome (loadLocatorData eng yamlFilePath tt) = Return data ->
      forall m, ~ In (Say m) (events (loadLocatorData eng yamlFilePath tt))).
Proof.
  unfold loadLocatorData, outcome, events. run_script.
  destruct (readFileSync eng yamlFilePath) as [fileContent|e1] eqn:Hr; simpl.
  - destruct (yamlLoad eng fileContent) as [data|e2] eqn:Hy; simpl.
    + split; [|split].
      * split; [discriminate|].
        intros [H|(c & H1 & H2)]; [discriminate H|].
        injection H1 as <-. congruence.
      * discriminate.
      * intros _ _ m [H|[H|[]]]; discriminate H.
    + split; [|split].
      * split.
        -- intros H. injection H as <-. right. exists fileContent.
           split; [reflexivity | exact Hy].
        -- intros [H|(c & H1 & H2)]; [discriminate H|].
           injection H1 as <-. congruence.
      * intros H. injection H as <-.
        exists [FromLib (EvReadFile yamlFilePath); FromLib (EvYamlLoad fileContent)].
        reflexivity.
      * discriminate.
  - split; [|split].
    + split.
      * intros H. injection H as <-. left. reflexivity.
      * intros [H|(c & H1 & _)]; [injection H as <-; reflexivity | discriminate H1].
    + intros H. injection H as <-.
      exists [FromLib (EvReadFile yamlFilePath)]. reflexivity.
    + discriminate.
Qed.

(** X18.  [loadLocatorData] returns whatever the file parses to; it does
    not look for the [elements] key.  A document that
    [validateElementFromData] rejects with [false] is returned by
    [loadLocatorData] without any complaint. *)
Theorem loadLocatorData_does_not_check_elements
    (eng : Engine) (yamlFilePath fileContent : jsstring) (s : SessionState)
    (p : Page) (data : YamlDoc) :
  page s = Some p ->
  readFileSync eng yamlFilePath = Return fileContent ->
  yamlLoad eng fileContent = Return data ->
  (forall entries, data <> YElements entries) ->
  loadLocatorData eng yamlFilePath tt
  = (Return data, tt,
     [FromLib (EvReadFile yamlFilePath); FromLib (EvYamlLoad fileContent)])
  /\ result (validateElementFromData eng yamlFilePath s) = Return false.
Proof.
  intros Hp Hr Hy Hd. split.
  - unfold loadLocatorData. run_script. rewrite Hr. simpl. rewrite Hy. reflexivity.
  - rewrite (validateElementFromData_no_elements eng yamlFilePath fileContent s p
               data Hp Hr Hy Hd). reflexivity.
Qed.

Lemma loadLocatorData_does_not_check_elements_witness :
  loadLocatorData Demo.withoutElements Demo.yamlPath tt
  = (Return YNoElements, tt,
     [FromLib (EvReadFile Demo.yamlPath);
      FromLib (EvYamlLoad (JsString.lit "elements: ..."))])
  /\ result (validateElementFromData Demo.withoutElements Demo.yamlPath Demo.opened)
     = Return false.
Proof.
  apply (loadLocatorData_does_not_check_elements Demo.withoutElements Demo.yamlPath
           (JsString.lit "elements: ...") Demo.opened 3 YNoElements);
    try reflexivity.
  discriminate.
Defined.

(** X19.  The two readers agree: the assertions [validateElementFromData]
    evaluates are the entries [loadLocatorData] returns for the same file,
    and its result is their aggregate. *)
Theorem validate_evaluates_what_loadLocatorData_returns
    (eng : Engine) (yamlFilePath : jsstring) (s : SessionState) (p : Page)
    (entries : list (jsstring * ElementData)) :
  page s = Some p ->
  outcome (loadLocatorData eng yamlFilePath tt) = Return (YElements entries) ->
  result (validateElementFromData eng yamlFilePath s)
    = Return (aggregate eng p entries)
  /\ resolved (trace (validateElementFromData eng yamlFilePath s))
     = List.map (fun en => (p, locator (snd en))) entries.
Proof.
  intros Hp Hl.
  assert (H : exists fileContent,
             readFileSync eng yamlFilePath = Return fileContent
             /\ yamlLoad eng fileContent = Return (YElements entries)).
  { revert Hl. unfold loadLocatorData, outcome. run_script.
    destruct (readFileSync eng yamlFilePath) as [fileContent|e1]; simpl;
      [|discriminate].
    destruct (yamlLoad eng fileContent) as [data|e2] eqn:Hy; simpl; [|discriminate].
    intros H. injection H as ->. exists fileContent. split; [reflexivity | exact Hy]. }
  destruct H as (fileContent & Hr & Hy).
  rewrite (validateElementFromData_entries eng yamlFilePath fileContent s p entries Hp Hr Hy).
  split; [reflexivity|].
  destruct (validateLoop_run eng p entries true s) as (_ & _ & _ & Q & _).
  unfold trace at 1. simpl snd.
  change (resolved ([EvReadFile yamlFilePath; EvYamlLoad fileContent;
                     EvLog (MsgValidatingCount (List.length entries))]
                    ++ trace (validateLoop eng p true entries s)
                    ++ [EvLog MsgRule;
                        EvLog (if aggregate eng p entries
                               then MsgAllPassed else MsgSomeFailed);
                        EvLog MsgRule])
          = List.map (fun en => (p, locator (snd en))) entries).
  rewrite !resolved_app, Q. simpl. apply app_nil_r.
Qed.

Lemma validate_evaluates_what_loadLocatorData_returns_witness :
  result (validateElementFromData Demo.healthy Demo.yamlPath Demo.opened)
  = Return (aggregate Demo.healthy 3 Demo.fourEntries).
Proof.
  apply (validate_evaluates_what_loadLocatorData_returns Demo.healthy Demo.yamlPath
           Demo.opened 3 Demo.fourEntries); reflexivity.
Defined.

(* ===================================================================== *)
(** ** [main] *)
(* ===================================================================== *)

Section MainFacts.

Variable toLowerCase : jsstring -> jsstring.
Variable eng : Engine.
Variable locatorFile : jsstring.

Lemma libTrace_app (t1 t2 : list ScriptEvent) :
  libTrace (t1 ++ t2) = libTrace t1 ++ libTrace t2.
Proof.
  induction t1 as [|ev t1 IH]; simpl; [reflexivity|].
  destruct ev; simpl; rewrite IH; reflexivity.
Qed.

Lemma libTrace_FromLib (t : list Event) : libTrace (List.map FromLib t) = t.
Proof.
  induction t as [|ev t IH]; simpl; [reflexivity | rewrite IH; reflexivity].
Qed.

(** [main] when [openUrl] throws. *)
Lemma main_open_failed (e : Error) (so : SessionState) (to : list Event) :
  openUrl toLowerCase eng Settings.URL Settings.BROWSER initial = (Throw e, so, to) ->
  main toLowerCase eng locatorFile
  = (Return 1, final (teardown eng so),
     banner ++ Say MsgStep1 :: List.map FromLib to
     ++ [Say (MsgCriticalError e); Say MsgExecutionFailed; Say MsgStep4]
     ++ List.map FromLib (trace (teardown eng so))
     ++ [Say MsgCompleted; ProcessExit 1]).
Proof.
  intros Ho. unfold main, mainBody. run_script. rewrite Ho. simpl.
  pose proof (teardown_never_throws eng so) as Ht.
  unfold result, final, trace in *.
  destruct (teardown eng so) as [[rt st] tt']. simpl in *. subst rt. simpl.
  rewrite <- !app_assoc. reflexivity.
Qed.

(** [main] when [openUrl] returns and the validation returns [passed]. *)
Lemma main_validated (p : Page) (so sv : SessionState) (to tv : list Event)
    (passed : bool) :
  openUrl toLowerCase eng Settings.URL Settings.BROWSER initial = (Return p, so, to) ->
  validateElementFromData eng locatorFile so = (Return passed, sv, tv) ->
  main toLowerCase eng locatorFile
  = (Return (if passed then 0 else 1), final (teardown eng sv),
     banner ++ Say MsgStep1 :: List.map FromLib to
     ++ Say MsgStep2 :: List.map FromLib tv
     ++ [Say MsgStep3; Say MsgRule60;
         Say (if passed then MsgTestPassed else MsgTestFailed);
         Say MsgRule60; Say MsgStep4]
     ++ List.map FromLib (trace (teardown eng sv))
     ++ [Say MsgCompleted; ProcessExit (if passed then 0 else 1)]).
Proof.
  intros Ho Hv. unfold main, mainBody. run_script. rewrite Ho. simpl.
  rewrite Hv. simpl.
  pose proof (teardown_never_throws eng sv) as Ht.
  unfold result, final, trace in *.
  destruct passed; simpl;
    destruct (teardown eng sv) as [[rt st] tt']; simpl in *; subst rt; simpl;
    repeat (rewrite <- app_assoc || rewrite <- app_comm_cons); reflexivity.
Qed.

(** After a returned [openUrl], the validation inside [main]. *)
Lemma main_validation_run (p : Page) (so : SessionState) (to : list Event) :
  openUrl toLowerCase eng Settings.URL Settings.BROWSER initial = (Return p, so, to) ->
  validateElementFromData eng locatorFile so
  = (Return (verdict eng p locatorFile), so,
     trace (validateElementFromData eng locatorFile so)).
Proof.
  intros Ho.
  destruct (openUrl_return_inv toLowerCase eng Settings.URL Settings.BROWSER initial p)
    as (kind & b & c & _ & _ & Hf).
  { rewrite Ho. reflexivity. }
  rewrite Ho in Hf. unfold final in Hf. simpl in Hf. subst so.
  destruct (validateElementFromData_verdict eng locatorFile
              (mkSession (Some b) (Some c) (Some p)) p eq_refl) as [R F].
  destruct (validateElementFromData eng locatorFile _) as [[r s'] t].
  unfold result, final, trace in *. simpl in *. subst. reflexivity.
Qed.

End MainFacts.

Lemma not_in_map_FromLib (m : ScriptMsg) (t : list Event) :
  ~ In (Say m) (List.map FromLib t).
Proof.
  induction t as [|ev t IH]; simpl; [tauto|].
  intros [H|H]; [discriminate H | exact (IH H)].
Qed.

(** The library steps of [main]: those of [openUrl], then those of the
    validation if [openUrl] returned, then those of [teardown]. *)
Lemma main_libTrace (toLowerCase : jsstring -> jsstring) (eng : Engine)
    (locatorFile : jsstring) :
  libTrace (events (main toLowerCase eng locatorFile))
  = trace (openUrl toLowerCase eng Settings.URL Settings.BROWSER initial)
    ++ match result (openUrl toLowerCase eng Settings.URL Settings.BROWSER initial) with
       | Return _ =>
           trace (validateElementFromData eng locatorFile
                    (final (openUrl toLowerCase eng Settings.URL Settings.BROWSER initial)))
       | Throw _ => []
       end
    ++ trace (teardown eng
                (final (openUrl toLowerCase eng Settings.URL Settings.BROWSER initial))).
Proof.
  destruct (openUrl toLowerCase eng Settings.URL Settings.BROWSER initial)
    as [[[p|e] so] to] eqn:Ho.
  - pose proof (main_validation_run toLowerCase eng locatorFile p so to Ho) as Hv.
    rewrite (main_validated toLowerCase eng locatorFile p so so to _ _ Ho Hv).
    unfold events, result, final, trace. simpl.
    rewrite !libTrace_app, libTrace_FromLib. simpl.
    rewrite !libTrace_app, !libTrace_FromLib. simpl.
    destruct (verdict eng p locatorFile); simpl;
      rewrite !libTrace_app, !libTrace_FromLib; simpl; rewrite app_nil_r; reflexivity.
  - rewrite (main_open_failed toLowerCase eng locatorFile e so to Ho).
    unfold events, result, final, trace. simpl.
    rewrite !libTrace_app, libTrace_FromLib. simpl.
    rewrite !libTrace_app, !libTrace_FromLib. simpl.
    rewrite app_nil_r. reflexivity.
Qed.

(** The fields at exit are those the last [teardown] leaves. *)
Lemma main_endState (toLowerCase : jsstring -> jsstring) (eng : Engine)
    (locatorFile : jsstring) :
  endState (main toLowerCase eng locatorFile)
  = final (teardown eng
             (final (openUrl toLowerCase eng Settings.URL Settings.BROWSER initial)))
  /\ exists code, outcome (main toLowerCase eng locatorFile) = Return code.
Proof.
  destruct (openUrl toLowerCase eng Settings.URL Settings.BROWSER initial)
    as [[[p|e] so] to] eqn:Ho.
  - pose proof (main_validation_run toLowerCase eng locatorFile p so to Ho) as Hv.
    rewrite (main_validated toLowerCase eng locatorFile p so so to _ _ Ho Hv).
    split; [reflexivity | eexists; reflexivity].
  - rewrite (main_open_failed toLowerCase eng locatorFile e so to Ho).
    split; [reflexivity | eexists; reflexivity].
Qed.

(** X20.  [main] always ends in [process.exit] with code 0 or 1, never in
    the unhandled-error handler of the script; the code is 0 exactly when
    [openUrl] returned a page and the declaration file's verdict on that
    page is [true]. *)
Theorem main_exits_zero_iff_opened_and_passed
    (toLowerCase : jsstring -> jsstring) (eng : Engine) (locatorFile : jsstring) :
  exists code before,
    outcome (main toLowerCase eng locatorFile) = Return code
    /\ events (main toLowerCase eng locatorFile)
       = before ++ [Say MsgCompleted; ProcessExit code]
    /\ (code = 0 \/ code = 1)
    /\ (code = 0 <->
        exists p,
          result (openUrl toLowerCase eng Settings.URL Settings.BROWSER initial)
            = Return p
          /\ verdict eng p locatorFile = true)
    /\ script toLowerCase eng locatorFile
       = (code, endState (main toLowerCase eng locatorFile),
          events (main toLowerCase eng locatorFile)).
Proof.
  unfold script.
  destruct (openUrl toLowerCase eng Settings.URL Settings.BROWSER initial)
    as [[[p|e] so] to] eqn:Ho.
  - pose proof (main_validation_run toLowerCase eng locatorFile p so to Ho) as Hv.
    rewrite (main_validated toLowerCase eng locatorFile p so so to _ _ Ho Hv).
    unfold outcome, endState, events, result. simpl.
    exists (if verdict eng p locatorFile then 0 else 1).
    eexists. split; [reflexivity|]. split.
    { rewrite !app_comm_cons, !app_assoc. reflexivity. }
    split; [destruct (verdict eng p locatorFile); auto|]. split; [|reflexivity].
    split.
    + intros H. exists p. split; [reflexivity|].
      destruct (verdict eng p locatorFile); [reflexivity | discriminate H].
    + intros (q & Hq & Hv'). injection Hq as <-. rewrite Hv'. reflexivity.
  - rewrite (main_open_failed toLowerCase eng locatorFile e so to Ho).
    unfold outcome, endState, events, result. simpl.
    exists 1. eexists. split; [reflexivity|]. split.
    { rewrite !app_comm_cons, !app_assoc. reflexivity. }
    split; [auto|]. split; [|reflexivity].
    split; [discriminate|]. intros (q & Hq & _). discriminate Hq.
Qed.

(** X21.  On every path the last thing [main] does before its closing
    line and [process.exit] is step 4: [teardown], run on the fields
    [openUrl] left (the validation does not change them); the fields at
    exit are those this [teardown] leaves. *)
Theorem main_always_tears_down_before_exit
    (toLowerCase : jsstring -> jsstring) (eng : Engine) (locatorFile : jsstring) :
  exists before code,
    events (main toLowerCase eng locatorFile)
    = before
      ++ Say MsgStep4
         :: List.map FromLib
              (trace (teardown eng
                        (final (openUrl toLowerCase eng Settings.URL
                                  Settings.BROWSER initial))))
      ++ [Say MsgCompleted; ProcessExit code]
    /\ endState (main toLowerCase eng locatorFile)
       = final (teardown eng
                  (final (openUrl toLowerCase eng Settings.URL
                            Settings.BROWSER initial))).
Proof.
  destruct (openUrl toLowerCase eng Settings.URL Settings.BROWSER initial)
    as [[[p|e] so] to] eqn:Ho.
  - pose proof (main_validation_run toLowerCase eng locatorFile p so to Ho) as Hv.
    rewrite (main_validated toLowerCase eng locatorFile p so so to _ _ Ho Hv).
    unfold endState, events, final at 2 4. simpl fst. simpl snd.
    exists (banner ++ Say MsgStep1 :: List.map FromLib to
            ++ Say MsgStep2
               :: List.map FromLib (trace (validateElementFromData eng locatorFile so))
            ++ [Say MsgStep3; Say MsgRule60;
                Say (if verdict eng p locatorFile then MsgTestPassed else MsgTestFailed);
                Say MsgRule60]),
      (if verdict eng p locatorFile then 0 else 1).
    split; [|reflexivity].
    repeat (rewrite <- app_assoc || rewrite <- app_comm_cons). reflexivity.
  - rewrite (main_open_failed toLowerCase eng locatorFile e so to Ho).
    unfold endState, events, final at 2 4. simpl fst. simpl snd.
    exists (banner ++ Say MsgStep1 :: List.map FromLib to
            ++ [Say (MsgCriticalError e); Say MsgExecutionFailed]), 1.
    split; [|reflexivity].
    repeat (rewrite <- app_assoc || rewrite <- app_comm_cons). reflexivity.
Qed.

(** X22.  The library steps of a run of [main] are those of [openUrl],
    then those of the validation when [openUrl] returned a page, then
    those of [teardown], and nothing else.  When [openUrl] throws, the
    error is written as a critical error and step 2 is never announced. *)
Theorem main_runs_open_validate_teardown_in_order
    (toLowerCase : jsstring -> jsstring) (eng : Engine) (locatorFile : jsstring) :
  libTrace (events (main toLowerCase eng locatorFile))
  = trace (openUrl toLowerCase eng Settings.URL Settings.BROWSER initial)
    ++ match result (openUrl toLowerCase eng Settings.URL Settings.BROWSER initial) with
       | Return _ =>
           trace (validateElementFromData eng locatorFile
                    (final (openUrl toLowerCase eng Settings.URL Settings.BROWSER initial)))
       | Throw _ => []
       end
    ++ trace (teardown eng
                (final (openUrl toLowerCase eng Settings.URL Settings.BROWSER initial)))
  /\ (forall e,
        result (openUrl toLowerCase eng Settings.URL Settings.BROWSER initial) = Throw e ->
        In (Say (MsgCriticalError e)) (events (main toLowerCase eng locatorFile))
        /\ ~ In (Say MsgStep2) (events (main toLowerCase eng locatorFile))).
Proof.
  split; [apply main_libTrace|].
  intros e He.
  destruct (openUrl toLowerCase eng Settings.URL Settings.BROWSER initial)
    as [[ro so] to] eqn:Ho.
  unfold result in He. simpl in He. subst ro.
  rewrite (main_open_failed toLowerCase eng locatorFile e so to Ho).
  unfold events. simpl. split.
  - do 6 right. apply in_or_app. right. left. reflexivity.
  - intros H.
    do 6 (destruct H as [H|H]; [discriminate H|]).
    apply in_app_or in H. destruct H as [H|H].
    { exact (not_in_map_FromLib _ _ H). }
    do 3 (destruct H as [H|H]; [discriminate H|]).
    apply in_app_or in H. destruct H as [H|H].
    { exact (not_in_map_FromLib _ _ H). }
    simpl in H. repeat (destruct H as [H|H]; [discriminate H|]). exact H.
Qed.

(** X23.  In a world whose release steps succeed, [main] leaves nothing
    open: at exit all three fields of its manager are null, whether the
    run passed, failed or could not open the page. *)
Theorem main_leaves_nothing_open
    (toLowerCase : jsstring -> jsstring) (eng : Engine) (locatorFile : jsstring) :
  worldReleases eng ->
  allNull (endState (main toLowerCase eng locatorFile)).
Proof.
  intros (Hp & Hc & Hb).
  destruct (main_endState toLowerCase eng locatorFile) as [-> _].
  apply teardown_releases_all.
  repeat split; intros; auto.
Qed.

Lemma main_leaves_nothing_open_witness :
  allNull (endState (main Demo.asciiLower Demo.healthy Demo.yamlPath)).
Proof.
  apply (main_leaves_nothing_open Demo.asciiLower Demo.healthy Demo.yamlPath).
  repeat split.
Defined.

(** [openUrl] on a supported browser type starts by launching it. *)
Lemma openUrl_first_step (toLowerCase : jsstring -> jsstring) (eng : Engine)
    (url browserType : jsstring) (kind : BrowserKind) (s : SessionState) :
  browserKindOf toLowerCase browserType = Some kind ->
  exists rest,
    trace (openUrl toLowerCase eng url browserType s) = EvLaunch kind :: rest.
Proof.
  intros Hk.
  destruct (openUrl_trichotomy toLowerCase eng url browserType s)
    as [Hn | [(kind' & e & partial & pre & Hk' & HF) | (kind' & b & c & q & Hk' & Hs)]].
  - congruence.
  - assert (kind' = kind) by congruence. subst kind'.
    rewrite (openUrl_failure toLowerCase eng url browserType kind s partial e pre Hk HF).
    unfold trace. simpl snd. destruct HF; eexists; reflexivity.
  - assert (kind' = kind) by congruence. subst kind'.
    rewrite (openUrl_success toLowerCase eng url browserType kind s b c q Hk Hs).
    eexists. reflexivity.
Qed.

(** X24.  With the settings as shipped, and a lower-casing that leaves
    ["chromium"] alone, the first library step of [main] is the launch of
    Chromium, and once a page is open [main] navigates it to
    [https://www.tophat.com/]. *)
Theorem main_launches_chromium_and_goes_to_tophat
    (toLowerCase : jsstring -> jsstring) (eng : Engine) (locatorFile : jsstring) :
  toLowerCase Settings.BROWSER = Settings.BROWSER ->
  (exists rest,
     libTrace (events (main toLowerCase eng locatorFile)) = EvLaunch Chromium :: rest)
  /\ (forall b c p,
        launch eng Chromium = Return b ->
        newContext eng b = Return c ->
        newPage eng c = Return p ->
        In (EvGoto p (JsString.lit "https://www.tophat.com/"))
           (libTrace (events (main toLowerCase eng locatorFile)))).
Proof.
  intros Hlow.
  assert (Hk : browserKindOf toLowerCase Settings.BROWSER = Some Chromium).
  { unfold browserKindOf. rewrite Hlow. reflexivity. }
  rewrite main_libTrace. split.
  - destruct (openUrl_first_step toLowerCase eng Settings.URL Settings.BROWSER
                Chromium initial Hk) as [rest ->].
    eexists. reflexivity.
  - intros b c p H1 H2 H3. apply in_or_app. left.
    destruct (openUrl_trichotomy toLowerCase eng Settings.URL Settings.BROWSER initial)
      as [Hn | [(kind & e & partial & pre & Hk' & HF) | (kind & b' & c' & q & Hk' & Hs)]].
    + congruence.
    + assert (kind = Chromium) by congruence. subst kind.
      rewrite (openUrl_failure toLowerCase eng Settings.URL Settings.BROWSER
                 Chromium initial partial e pre Hk HF).
      unfold trace. simpl snd. apply in_or_app. left.
      destruct HF;
        repeat match goal with
               | Ha : ?x = Return ?u, Hb : ?x = Return ?v |- _ =>
                   assert (u = v) by congruence; subst; clear Hb
               end;
        try congruence;
        simpl; do 4 right; left; reflexivity.
    + assert (kind = Chromium) by congruence. subst kind.
      rewrite (openUrl_success toLowerCase eng Settings.URL Settings.BROWSER
                 Chromium initial b' c' q Hk Hs).
      destruct Hs as (G1 & G2 & G3 & _).
      assert (b' = b) by congruence. subst b'.
      assert (c' = c) by congruence. subst c'.
      assert (q = p) by congruence. subst q.
      unfold trace. simpl. do 4 right. left. reflexivity.
Qed.

Lemma main_launches_chromium_and_goes_to_tophat_witness :
  exists rest,
    libTrace (events (main Demo.asciiLower Demo.healthy Demo.yamlPath))
    = EvLaunch Chromium :: rest.
Proof.
  apply (main_launches_chromium_and_goes_to_tophat Demo.asciiLower Demo.healthy
           Demo.yamlPath).
  reflexivity.
Defined.

(** X25.  In a world whose release steps succeed, an [openUrl] that throws
    leaves the manager closed: all three fields are null, and a
    validation attempted afterwards throws the page-not-initialized
    error. *)
Theorem validate_after_failed_open_throws
    (toLowerCase : jsstring -> jsstring) (eng : Engine)
    (url browserType yamlFilePath : jsstring) (s : SessionState) (e : Error) :
  worldReleases eng ->
  result (openUrl toLowerCase eng url browserType s) = Throw e ->
  allNull (final (openUrl toLowerCase eng url browserType s))
  /\ result (validateElementFromData eng yamlFilePath
               (final (openUrl toLowerCase eng url browserType s)))
     = Throw PageNotInitialized.
Proof.
  intros (Hp & Hc & Hb) He.
  assert (Hall : forall s', releasesSucceed eng s').
  { intros s'. repeat split; intros; auto. }
  assert (Hn : allNull (final (openUrl toLowerCase eng url browserType s))).
  { destruct (openUrl_trichotomy toLowerCase eng url browserType s)
      as [Hk | [(kind & e' & partial & pre & Hk & HF) | (kind & b & c & q & Hk & Hs)]].
    - rewrite (openUrl_unsupported toLowerCase eng url browserType s Hk).
      apply teardown_releases_all, Hall.
    - rewrite (openUrl_failure toLowerCase eng url browserType kind s partial e' pre Hk HF).
      apply teardown_releases_all, Hall.
    - rewrite (openUrl_success toLowerCase eng url browserType kind s b c q Hk Hs) in He.
      discriminate He. }
  split; [exact Hn|].
  rewrite (validateElementFromData_no_page eng yamlFilePath _ (proj1 Hn)).
  reflexivity.
Qed.

Lemma validate_after_failed_open_throws_witness :
  result (validateElementFromData Demo.newPageThrows Demo.yamlPath
            (final (openUrl Demo.asciiLower Demo.newPageThrows Demo.requested
                      (JsString.lit "chromium") initial)))
  = Throw PageNotInitialized.
Proof.
  apply (validate_after_failed_open_throws Demo.asciiLower Demo.newPageThrows
           Demo.requested (JsString.lit "chromium") Demo.yamlPath initial (External 2)).
  - repeat split.
  - reflexivity.
Defined.
